(** * precastro: Time values, timescale conversion, barycentric correction

    A shallow embedding of [precastro.py].  Python floats are IEEE binary64
    values ([PrimFloat.float]); [Time] instances live in a store indexed by
    object identity, because the methods mutate [self] and hand out fresh
    instances; exceptions leave the store as it was at the [raise].  The
    compiled extension [_precastro] (SOFA and NOVAS) is a record of functions
    the development is parametric in. *)

From Stdlib Require Import ZArith Floats Ascii String Lia.
From stdpp Require Import gmap strings list fin_maps.

Set Warnings "-inexact-float".
Open Scope Z_scope.

(** ** Exceptions *)

Inductive exn : Type :=
| ValueError (msg : string)
| TypeError
| AttributeError
| UnicodeError
| SofaError (func : string) (code : Z)
| NovasError (func : string) (code : Z)
| UnsupportedTimescaleError (timescale : option string).

Inductive outcome (A : Type) : Type :=
| Ok (a : A)
| Raise (e : exn).
Arguments Ok {A} a.
Arguments Raise {A} e.

(** ** Objects and the store *)

(** Attributes of a [Time] instance; [None] is Python's [None], the value
    the class attributes give a new instance. *)
Record Time : Type := mkTime {
  jd1 : option float;
  jd2 : option float;
  timescale : option string
}.

Abbreviation loc := positive.

(** The handle structure behind a celestial object ([novas_object]) and the
    catalogue entry it embeds. *)
Record cat_entry : Type := mkCat {
  star_ra : float;
  star_dec : float
}.

Record novas_object : Type := mkObject {
  otype : Z;
  number : Z;
  star : cat_entry
}.

(** Routines of the kernel that were invoked, most recent first. *)
Inductive kcall : Type :=
| KiauDtf2d (scale : string) (iy im id ihr imn : Z) (sec : float)
| KiauTaitt (a b : float)
| KiauUtctai (a b : float)
| KiauD2dtf (scale : string) (ndp : Z) (a b : float)
| Kmake_object (type num : Z)
| Kephem_open (path : string)
| Kephemeris (a b : float) (num : Z).

Record World : Type := mkWorld {
  heap : gmap loc Time;
  klog : list kcall
}.

(** ** Computations: a store that survives exceptions *)

Definition M (A : Type) : Type := World -> World * outcome A.

Definition ret {A} (a : A) : M A := fun w => (w, Ok a).
Definition raise {A} (e : exn) : M A := fun w => (w, Raise e).
Definition bind {A B} (c : M A) (k : A -> M B) : M B :=
  fun w => match c w with
           | (w', Ok a) => k a w'
           | (w', Raise e) => (w', Raise e)
           end.

Notation "'do' x <- c ; k" := (bind c (fun x => k))
  (at level 60, x name, c at next level, right associativity).
Notation "'step' c ; k" := (bind c (fun _ => k))
  (at level 60, c at next level, right associativity).

(** [Time ()]: a new instance, all attributes [None]. *)
Definition Time_new : M loc := fun w =>
  let l := fresh (dom (heap w)) in
  (mkWorld (<[l := mkTime None None None]> (heap w)) (klog w), Ok l).

Definition getobj (l : loc) : M Time := fun w =>
  match heap w !! l with
  | Some t => (w, Ok t)
  | None => (w, Raise AttributeError)
  end.

Definition setobj (l : loc) (f : Time -> Time) : M unit := fun w =>
  match heap w !! l with
  | Some t => (mkWorld (<[l := f t]> (heap w)) (klog w), Ok tt)
  | None => (w, Raise AttributeError)
  end.

Definition set_jd1 (l : loc) (v : option float) : M unit :=
  setobj l (fun t => mkTime v (jd2 t) (timescale t)).
Definition set_jd2 (l : loc) (v : option float) : M unit :=
  setobj l (fun t => mkTime (jd1 t) v (timescale t)).
Definition set_timescale (l : loc) (v : option string) : M unit :=
  setobj l (fun t => mkTime (jd1 t) (jd2 t) v).

Definition record_call (c : kcall) : M unit := fun w =>
  (mkWorld (heap w) (c :: klog w), Ok tt).

(** A float is required where the code does arithmetic or calls the kernel;
    [None] there is a [TypeError]. *)
Definition as_float (v : option float) : M float :=
  match v with
  | Some x => ret x
  | None => raise TypeError
  end.

(** ** Module constants and checks *)

Definition dq : string := String (ascii_of_nat 34) EmptyString.

Definition _oktimescales : gset string :=
  list_to_set ["TAI"; "UTC"; "UT1"; "TT"; "TCG"; "TCB"; "TDB"]%string.

Definition C_AUDAY : float := 173.1446326846693%float.

Definition _checktimescale (ts : string) : M unit :=
  if bool_decide (ts ∈ _oktimescales) then ret tt
  else raise (ValueError ("illegal timescale name " ++ dq ++ ts ++ dq)).

Definition _checksofacode (func : string) (code : Z) (dubiousok : bool) : M unit :=
  if (code =? 1) && negb dubiousok then raise (SofaError func code)
  else if negb (code =? 0) then raise (SofaError func code)
  else ret tt.

(** [s.encode ('ascii')] on a byte string: bytes above 127 cannot be
    decoded. *)
Definition is_ascii (s : string) : bool :=
  forallb (fun c => (nat_of_ascii c <? 128)%nat) (list_ascii_of_string s).

Definition encode_ascii (s : string) : M string :=
  if is_ascii s then ret s else raise UnicodeError.

(** ** The kernel *)

Record Kernel : Type := mkKernel {
  iauDtf2d : string -> Z -> Z -> Z -> Z -> Z -> float -> Z * float * float;
  iauTaitt : float -> float -> Z * float * float;
  iauUtctai : float -> float -> Z * float * float;
  iauD2dtf_tweak : string -> Z -> float -> float -> Z * (Z * Z * Z * Z * Z * Z * Z);
  make_object : Z -> Z -> string -> option cat_entry -> novas_object -> Z * novas_object;
  ephem_open : string -> Z;
  ephemeris_tweak : float -> float -> novas_object -> Z -> Z ->
                    Z * (float * float * float) * (float * float * float)
}.

(** ** Decimal formatting ([%d], [%02d], [%0*d]) *)

Definition digit_char (d : Z) : ascii := ascii_of_nat (48 + Z.to_nat d).

Fixpoint digits_of (fuel : nat) (n : Z) : string :=
  match fuel with
  | O => EmptyString
  | S f =>
      if n <? 10 then String (digit_char n) EmptyString
      else digits_of f (n / 10) ++ String (digit_char (n mod 10)) EmptyString
  end.

Definition udigits (n : Z) : string := digits_of (S (Z.to_nat (Z.log2 n))) n.

Fixpoint zeros (k : nat) : string :=
  match k with
  | O => EmptyString
  | S k' => String "0" (zeros k')
  end.

(** ['%0*d' % (width, n)] for a width that is not negative: the sign, then
    zeros up to the width, then the digits. *)
Definition fmt_0d (width : nat) (n : Z) : string :=
  let ds := udigits (Z.abs n) in
  let sg := if n <? 0 then "-"%string else EmptyString in
  sg ++ zeros (width - String.length sg - String.length ds) ++ ds.

Definition fmt_d (n : Z) : string := fmt_0d 0 n.

(** Reading a string of decimal digits back. *)





(** ** Class [Time] *)

Section TimeMethods.
Variable K : Kernel.

Definition fromJD (self : loc) (jd : float) (ts : string) : M loc :=
  step _checktimescale ts;
  step set_jd1 self (Some jd);
  step set_jd2 self (Some 0%float);
  step set_timescale self (Some ts);
  ret self.

Definition fromMJD (self : loc) (mjd : float) (ts : string) : M loc :=
  step _checktimescale ts;
  step set_jd1 self (Some 2400000.5%float);
  step set_jd2 self (Some mjd);
  step set_timescale self (Some ts);
  ret self.

Definition fromcalendar (self : loc) (year month day hour minute : Z)
    (second : float) (ts : string) (dubiousok : bool) : M loc :=
  step _checktimescale ts;
  do scale <- encode_ascii ts;
  let '(code, d1, d2) := iauDtf2d K scale year month day hour minute second in
  step record_call (KiauDtf2d scale year month day hour minute second);
  step set_jd1 self (Some d1);
  step set_jd2 self (Some d2);
  step _checksofacode "dtf2d" code dubiousok;
  step set_timescale self (Some ts);
  ret self.

Definition asJD (self : loc) : M float :=
  do t <- getobj self;
  do a <- as_float (jd1 t);
  do b <- as_float (jd2 t);
  ret (a + b)%float.

Definition asMJD (self : loc) : M float :=
  do t <- getobj self;
  do a <- as_float (jd1 t);
  do b <- as_float (jd2 t);
  ret ((a - 2400000.5) + b)%float.

Definition str_is (v : option string) (s : string) : bool :=
  match v with
  | Some s' => String.eqb s' s
  | None => false
  end.

Definition asTT (self : loc) (dubiousok : bool) : M loc :=
  do res <- Time_new;
  step set_timescale res (Some "TT"%string);
  do t <- getobj self;
  if str_is (timescale t) "TT" then
    step set_jd1 res (jd1 t);
    step set_jd2 res (jd2 t);
    ret res
  else if str_is (timescale t) "TAI" then
    do a <- as_float (jd1 t);
    do b <- as_float (jd2 t);
    let '(code, r1, r2) := iauTaitt K a b in
    step record_call (KiauTaitt a b);
    step set_jd1 res (Some r1);
    step set_jd2 res (Some r2);
    step _checksofacode "taitt" code dubiousok;
    ret res
  else if str_is (timescale t) "UTC" then
    do a <- as_float (jd1 t);
    do b <- as_float (jd2 t);
    let '(code, r1, r2) := iauUtctai K a b in
    step record_call (KiauUtctai a b);
    step set_jd1 res (Some r1);
    step set_jd2 res (Some r2);
    step _checksofacode "utctai" code dubiousok;
    let '(code', q1, q2) := iauTaitt K r1 r2 in
    step record_call (KiauTaitt r1 r2);
    step set_jd1 res (Some q1);
    step set_jd2 res (Some q2);
    step _checksofacode "taitt" code' dubiousok;
    ret res
  else raise (UnsupportedTimescaleError (timescale t)).

Definition asTDB (self : loc) (ttok : bool) : M loc :=
  do t <- getobj self;
  if str_is (timescale t) "TDB" then
    do res <- Time_new;
    step set_timescale res (Some "TDB"%string);
    step set_jd1 res (jd1 t);
    step set_jd2 res (jd2 t);
    ret res
  else if negb ttok then raise (UnsupportedTimescaleError (timescale t))
  else asTT self false.

(** *** Celestial objects *)

(** [_precastro.novas_object ()] allocates the zeroed handle structure; it
    is storage for the routines below, not one of them. *)
Definition new_novas_object : novas_object :=
  mkObject 0 0 (mkCat 0%float 0%float).

Record SiderealObject : Type := mkSidereal { so_handle : novas_object }.
Record EphemObject : Type := mkEphem { eo_handle : novas_object }.

(** Constants of [pwkit.astutil] (hours and degrees to radians), the
    functions of [math], and the directory of the extension module. *)
Variables H2R D2R : float.
Variables cos sin : float -> float.
Variable precastro_dir : string.

Definition _get_ra (o : SiderealObject) : float :=
  (star_ra (star (so_handle o)) * H2R)%float.
Definition _get_dec (o : SiderealObject) : float :=
  (star_dec (star (so_handle o)) * D2R)%float.

Definition _ephemnums : gmap string Z :=
  list_to_map
    [("mercury", 1); ("venus", 2); ("earth", 3); ("mars", 4);
     ("jupiter", 5); ("saturn", 6); ("uranus", 7); ("neptune", 8);
     ("pluto", 9); ("sun", 10); ("moon", 11)]%string.

Definition EphemObject_init (name : string) : M EphemObject :=
  let handle := new_novas_object in
  match _ephemnums !! name with
  | None =>
      raise (ValueError ("unrecognized ephemeris object name " ++ dq ++ name ++ dq))
  | Some num =>
      let '(code, handle') := make_object K 0 num " " None handle in
      step record_call (Kmake_object 0 num);
      if negb (code =? 0) then raise (NovasError "make_object" code)
      else ret (mkEphem handle')
  end.

Definition _open_ephem : M unit :=
  let p := (precastro_dir ++ "/" ++ "_precastro-DEc421.dat")%string in
  let code := ephem_open K p in
  step record_call (Kephem_open p);
  if negb (code =? 0) then raise (NovasError "ephem_open" code)
  else ret tt.

(** [NovasError ('ephemeris')] lacks the [code] argument of the
    constructor, so that [raise] is a [TypeError]. *)
Definition ephem (self : EphemObject) (time : loc) (ttok : bool)
    : M ((float * float * float) * (float * float * float)) :=
  do tdb <- asTDB time ttok;
  step _open_ephem;
  do t <- getobj tdb;
  do a <- as_float (jd1 t);
  do b <- as_float (jd2 t);
  let '(code, pos, vel) := ephemeris_tweak K a b (eo_handle self) 0 0 in
  step record_call (Kephemeris a b (number (eo_handle self)));
  if negb (code =? 0) then raise TypeError
  else ret (pos, vel).

Definition asBJD (self : loc) (obj : SiderealObject) (ttok : bool) : M loc :=
  do earth <- EphemObject_init "earth";
  do tdb <- asTDB self ttok;
  let xhat := (cos (_get_dec obj) * cos (_get_ra obj))%float in
  let yhat := (cos (_get_dec obj) * sin (_get_ra obj))%float in
  let zhat := sin (_get_dec obj) in
  do pv <- ephem earth tdb ttok;
  let '(xobs, yobs, zobs) := fst pv in
  let jdelta := ((xobs * xhat + yobs * yhat + zobs * zhat) / C_AUDAY)%float in
  do t <- getobj tdb;
  do b <- as_float (jd2 t);
  step set_jd2 tdb (Some (b + jdelta)%float);
  ret tdb.

(** *** Calendar formatting *)

Definition fmtcalendar (self : loc) (precision : Z) (dubiousok : bool) : M string :=
  do t <- getobj self;
  do ts <- match timescale t with
           | Some s => ret s
           | None => raise AttributeError
           end;
  do scale <- encode_ascii ts;
  do a <- as_float (jd1 t);
  do b <- as_float (jd2 t);
  let '(code, (yr, mo, dy, hr, mi, sc, fr)) := iauD2dtf_tweak K scale precision a b in
  step record_call (KiauD2dtf scale precision a b);
  step _checksofacode "d2dtf" code dubiousok;
  let frac := if precision <? 1 then EmptyString
              else ("." ++ fmt_0d (Z.to_nat precision) fr)%string in
  ret (fmt_d yr ++ "/" ++ fmt_0d 2 mo ++ "/" ++ fmt_0d 2 dy ++ " "
       ++ fmt_0d 2 hr ++ ":" ++ fmt_0d 2 mi ++ ":" ++ fmt_0d 2 sc ++ frac)%string.

End TimeMethods.

(** ** Times that convert to TT

    [asTT] has a path for TT itself, for TAI and for UTC; the last two go
    through the kernel and need its status to be zero. *)

Definition status {A B : Type} (r : Z * A * B) : Z := fst (fst r).

Definition tt_convertible (K : Kernel) (t : Time) : bool :=
  if str_is (timescale t) "TT" then true
  else if str_is (timescale t) "TAI" then
    match jd1 t, jd2 t with
    | Some a, Some b => status (iauTaitt K a b) =? 0
    | _, _ => false
    end
  else if str_is (timescale t) "UTC" then
    match jd1 t, jd2 t with
    | Some a, Some b =>
        let '(c, r1, r2) := iauUtctai K a b in
        (c =? 0) && (status (iauTaitt K r1 r2) =? 0)
    | _, _ => false
    end
  else false.

(** ** The bodies the specification enumerates

    The names the specification lists for the ephemeris variant; compared
    with the keys of [_ephemnums] below. *)

Definition spec_bodies : list string :=
  ["mercury"; "venus"; "earth"; "mars"; "jupiter"; "saturn"; "uranus";
   "neptune"; "pluto"; "sun"; "moon"]%string.

(** ** A stand-in kernel for running the methods

    It follows SOFA where that is short ([iauCal2jd]'s day count, the fixed
    TT-TAI offset, the dubious-year status of UTC dates before 1960) and
    knows a single date, J2000.0, for the reverse transform. *)

Definition float_of_Z (z : Z) : float :=
  if z <? 0 then (- of_uint63 (Uint63.of_Z (- z)))%float
  else of_uint63 (Uint63.of_Z z).

Definition cal2mjd (iy im id : Z) : Z :=
  let my := Z.quot (im - 14) 12 in
  let iypmy := iy + my in
  Z.quot (1461 * (iypmy + 4800)) 4
  + Z.quot (367 * (im - 2 - 12 * my)) 12
  - Z.quot (3 * Z.quot (iypmy + 4900) 100) 4
  + id - 2432076.

Definition sample_kernel : Kernel := {|
  iauDtf2d := fun scale iy im id ihr imn sec =>
    (if String.eqb scale "UTC" && (iy <? 1960) then 1 else 0,
     (2400000.5 + float_of_Z (cal2mjd iy im id))%float,
     ((60 * float_of_Z (60 * ihr + imn) + sec) / 86400)%float);
  iauTaitt := fun a b => (0, a, (b + 32.184 / 86400)%float);
  iauUtctai := fun a b =>
    (if (a + b <? 2436934.5)%float then 1 else 0, a, (b + 37 / 86400)%float);
  iauD2dtf_tweak := fun scale ndp a b =>
    if (a + b =? 2451545)%float && (0 <=? ndp) && (ndp <=? 9)
    then (0, (2000, 1, 1, 12, 0, 0, 0))
    else (-1, (0, 0, 0, 0, 0, 0, 0));
  make_object := fun type num name st h =>
    (0, mkObject type num (match st with Some c => c | None => mkCat 0 0 end));
  ephem_open := fun _ => 0;
  ephemeris_tweak := fun a b h origin accuracy =>
    (0, (1, 0, 0)%float, (0, 0, 0)%float)
|}.

Definition w0 : World := mkWorld ∅ [].

(** [Time ().fromJD (x, ts).asJD ()] and its siblings. *)
Definition roundtrip_JD (x : float) (ts : string) : M float :=
  do t <- Time_new; do s <- fromJD t x ts; asJD s.
Definition roundtrip_MJD (m : float) (ts : string) : M float :=
  do t <- Time_new; do s <- fromMJD t m ts; asMJD s.
Definition fromMJD_asJD (m : float) (ts : string) : M float :=
  do t <- Time_new; do s <- fromMJD t m ts; asJD s.


(** Worlds and inputs for concrete runs: one [Time] at address 1. *)

Definition world_with (t : Time) : World := mkWorld {[1%positive := t]} [].

Definition j2000 (ts : string) : Time :=
  mkTime (Some 2451545%float) (Some 0%float) (Some ts).

(** Low-order series for [math.cos] and [math.sin], good near zero. *)
Definition cos_series (x : float) : float := (1 - x * x / 2)%float.
Definition sin_series (x : float) : float := (x - x * x * x / 6)%float.

Definition origin_star : SiderealObject := mkSidereal new_novas_object.

(** ** The rest of class [Time], observers and places

    Routines of the extension the methods below call.  They return their
    results and leave the store alone. *)

Record on_surface : Type := mkSurf {
  latitude : float;
  longitude : float;
  height : float
}.

Record novas_observer : Type := mkObserver { on_surf : on_surface }.

Record EarthObserver : Type := mkEarthObs { ob_handle : novas_observer }.

Record PlaceKernel : Type := mkPlaceKernel {
  iauJd2cal : float -> float -> Z * (Z * Z * Z * float);
  iauEpj2jd : float -> float * float;
  astro_star : float -> cat_entry -> Z -> Z * float * float;
  astro_planet : float -> novas_object -> Z -> Z * (float * float * float);
  topo_star : float -> float -> cat_entry -> on_surface -> Z -> Z * float * float;
  topo_planet : float -> novas_object -> float -> on_surface -> Z
                -> Z * (float * float * float);
  equ2hor : float -> float -> Z -> float -> float -> on_surface -> float -> float -> Z
            -> float * float * float * float
}.

(** What a caller may pass where a time is expected ([jd_tt], [time]): a
    float, or a [Time] instance. *)
Inductive jd_arg : Type :=
| JDfloat (x : float)
| JDtime (l : loc).

(** What a caller may pass as [earthobs]: an [EarthObserver], a tuple (given
    by the [str] of its items), or any other object (given by its [str]). *)
Inductive observer_arg : Type :=
| AnEarthObserver (o : EarthObserver)
| ATuple (strs : list string)
| OtherObject (str : string).

Inductive celestial : Type :=
| Sidereal (o : SiderealObject)
| Ephemeris (o : EphemObject).

Section MoreMethods.
Variable K : Kernel.
Variable P : PlaceKernel.
Variables H2R D2R R2H R2D : float.
Variable precastro_dir : string.

Definition fromPOSIX (self : loc) (time : float) : M loc :=
  step set_jd1 self (Some 2440587.5%float);
  step set_jd2 self (Some (time / 86400)%float);
  step set_timescale self (Some "UTC"%string);
  ret self.

(** [clock] is what [time.time ()] returns. *)
Definition fromnow (clock : float) (self : loc) : M loc :=
  step fromPOSIX self clock;
  ret self.

Definition now (clock : float) : M loc :=
  do t <- Time_new;
  fromnow clock t.

Definition fromfdcal (self : loc) (year month day : Z) (fday : float)
    (ts : string) (dubiousok : bool) : M loc :=
  step _checktimescale ts;
  do scale <- encode_ascii ts;
  let '(code, d1, d2) := iauDtf2d K scale year month day 0 0 0%float in
  step record_call (KiauDtf2d scale year month day 0 0 0%float);
  step set_jd1 self (Some d1);
  step set_jd2 self (Some d2);
  step _checksofacode "dtf2d" code dubiousok;
  do t <- getobj self;
  do b <- as_float (jd2 t);
  step set_jd2 self (Some (b + fday)%float);
  step set_timescale self (Some ts);
  ret self.

Definition fromjepoch (self : loc) (julian_epoch : float) : M loc :=
  let '(d1, d2) := iauEpj2jd P julian_epoch in
  step set_jd1 self (Some d1);
  step set_jd2 self (Some d2);
  step set_timescale self (Some "TT"%string);
  ret self.

Definition ascalendar (self : loc) : M (Z * Z * Z * float) :=
  do t <- getobj self;
  do a <- as_float (jd1 t);
  do b <- as_float (jd2 t);
  let '(res, ymdf) := iauJd2cal P a b in
  step _checksofacode "jd2cal" res false;
  ret ymdf.

(** [for name, num in _ephemnums.iteritems (): ... break ... else], over
    the items in the order the dictionary yields them. *)
Definition describe_in (items : list (string * Z)) (self : EphemObject) : string :=
  let name := match List.find (fun kv => snd kv =? number (eo_handle self)) items with
              | Some kv => fst kv
              | None => "unknown?"%string
              end in
  ("Ephemeris object " ++ dq ++ name ++ dq)%string.

Definition EphemObject_describe (self : EphemObject) : string :=
  describe_in (map_to_list _ephemnums) self.

(** [if isinstance (jd_tt, Time): jd_tt = jd_tt.asTT ().asJD ()] *)
Definition to_jd_tt (jd_tt : jd_arg) : M float :=
  match jd_tt with
  | JDtime l => do r <- asTT K l false; asJD r
  | JDfloat x => ret x
  end.

(** [if not isinstance (earthobs, EarthObserver): raise ValueError (...)];
    the [%] of the message takes a tuple as its argument list. *)
Definition check_observer (earthobs : observer_arg) : M EarthObserver :=
  let msg (s : string) :=
    ("must provide an observer position on Earth; got " ++ dq ++ s ++ dq)%string in
  match earthobs with
  | AnEarthObserver o => ret o
  | OtherObject s => raise (ValueError (msg s))
  | ATuple [s] => raise (ValueError (msg s))
  | ATuple _ => raise TypeError
  end.

Definition Sidereal_astropos (self : SiderealObject) (jd_tt : jd_arg)
    (lowaccuracy : bool) : M (float * float) :=
  do jd <- to_jd_tt jd_tt;
  step _open_ephem K precastro_dir;
  let '(code, ra, dec) := astro_star P jd (star (so_handle self)) (Z.b2z lowaccuracy) in
  if negb (code =? 0) then raise (NovasError "astro_star" code)
  else ret (ra * H2R, dec * D2R)%float.

Definition Sidereal_topopos (self : SiderealObject) (jd_tt : jd_arg)
    (earthobs : observer_arg) (deltat : float) (lowaccuracy : bool) : M (float * float) :=
  do obs <- check_observer earthobs;
  do jd <- to_jd_tt jd_tt;
  step _open_ephem K precastro_dir;
  let '(code, ra, dec) := topo_star P jd deltat (star (so_handle self))
                            (on_surf (ob_handle obs)) (Z.b2z lowaccuracy) in
  if negb (code =? 0) then raise (NovasError "topo_star" code)
  else ret (ra * H2R, dec * D2R)%float.

Definition Ephem_astropos (self : EphemObject) (jd_tt : jd_arg)
    (lowaccuracy : bool) : M (float * float) :=
  do jd <- to_jd_tt jd_tt;
  step _open_ephem K precastro_dir;
  let '(code, (ra, dec, dist)) := astro_planet P jd (eo_handle self) (Z.b2z lowaccuracy) in
  if negb (code =? 0) then raise (NovasError "astro_planet" code)
  else ret (ra * H2R, dec * D2R)%float.

Definition Ephem_topopos (self : EphemObject) (jd_tt : jd_arg)
    (earthobs : observer_arg) (deltat : float) (lowaccuracy : bool) : M (float * float) :=
  do obs <- check_observer earthobs;
  do jd <- to_jd_tt jd_tt;
  step _open_ephem K precastro_dir;
  let '(code, (ra, dec, dist)) := topo_planet P jd (eo_handle self) deltat
                                    (on_surf (ob_handle obs)) (Z.b2z lowaccuracy) in
  if negb (code =? 0) then raise (NovasError "topo_planet" code)
  else ret (ra * H2R, dec * D2R)%float.

Definition topopos (self : celestial) (jd_tt : jd_arg) (earthobs : observer_arg)
    (deltat : float) (lowaccuracy : bool) : M (float * float) :=
  match self with
  | Sidereal o => Sidereal_topopos o jd_tt earthobs deltat lowaccuracy
  | Ephemeris o => Ephem_topopos o jd_tt earthobs deltat lowaccuracy
  end.

Definition astropos (self : celestial) (jd_tt : jd_arg) (lowaccuracy : bool)
    : M (float * float) :=
  match self with
  | Sidereal o => Sidereal_astropos o jd_tt lowaccuracy
  | Ephemeris o => Ephem_astropos o jd_tt lowaccuracy
  end.

(** [time.asTT ()] needs a [Time]: a float has no such attribute. *)
Definition horizonpos (self : celestial) (time : jd_arg) (earthobs : observer_arg)
    (lowaccuracy : bool) (deltat xp yp : float) (refract : Z) : M (float * float) :=
  do obs <- check_observer earthobs;
  step _open_ephem K precastro_dir;
  do radec <- topopos self time earthobs deltat lowaccuracy;
  let ra := (fst radec * R2H)%float in
  let dec := (snd radec * R2D)%float in
  do tt <- match time with
           | JDtime l => asTT K l false
           | JDfloat _ => raise AttributeError
           end;
  do jd <- asJD tt;
  let ut1 := (jd - deltat)%float in
  let '(zd, az, rar, decr) := equ2hor P ut1 deltat (Z.b2z lowaccuracy) xp yp
                                (on_surf (ob_handle obs)) ra dec refract in
  ret (az * D2R, (90 - zd) * D2R)%float.

End MoreMethods.

(** ** Instances that a computation leaves alone

    [keeps X c Q]: run from a store that holds the instances [X], [c] keeps
    each of them as it is, and a value it returns satisfies [Q]. *)

Definition keeps {A : Type} (X : gset loc) (c : M A) (Q : A -> Prop) : Prop :=
  forall w w' r,
    X ⊆ dom (heap w) -> c w = (w', r) ->
    (forall l, l ∈ X -> heap w' !! l = heap w !! l)
    /\ X ⊆ dom (heap w')
    /\ (forall a, r = Ok a -> Q a).

(** A stand-in for the place routines: every status zero, fixed answers. *)
Definition sample_places : PlaceKernel := {|
  iauJd2cal := fun a b =>
    if (a + b =? 2451545)%float then (0, (2000, 1, 1, 0.5%float))
    else (-1, (0, 0, 0, 0%float));
  iauEpj2jd := fun e => (2400000.5, 51544.5 + (e - 2000) * 365.25)%float;
  astro_star := fun jd st acc => (0, star_ra st, star_dec st);
  astro_planet := fun jd h acc => (0, (0, 0, 1)%float);
  topo_star := fun jd dt st loc acc => (0, star_ra st, star_dec st);
  topo_planet := fun jd h dt loc acc => (0, (0, 0, 1)%float);
  equ2hor := fun ut1 dt acc xp yp loc ra dec refr => (90, 0, ra, dec)%float
|}.

Definition geocenter : EarthObserver := mkEarthObs (mkObserver (mkSurf 0 0 0)).

(** The stand-in kernel with given statuses for opening and reading the
    ephemeris. *)
Definition kernel_with_ephem_status (open_code read_code : Z) : Kernel := {|
  iauDtf2d := iauDtf2d sample_kernel;
  iauTaitt := iauTaitt sample_kernel;
  iauUtctai := iauUtctai sample_kernel;
  iauD2dtf_tweak := iauD2dtf_tweak sample_kernel;
  make_object := make_object sample_kernel;
  ephem_open := fun _ => open_code;
  ephemeris_tweak := fun a b h origin accuracy =>
    (read_code, (0, 0, 0)%float, (0, 0, 0)%float)
|}.

(** * Facts about binary64 arithmetic *)

Section Binary64.

Lemma SFcompare_refl (a : spec_float) :
  a <> S754_nan -> SFcompare a a = Some Eq.
Proof.
  destruct a as [s|s| |s m e]; simpl; intros Hn; try congruence.
  - now destruct s.
  - rewrite Z.compare_refl.
    change (PosDef.Pos.compare_cont Eq m m) with (Pos.compare m m).
    rewrite Pos.compare_refl. now destruct s.
Qed.

Lemma SFeqb_refl (a : spec_float) : a <> S754_nan -> SFeqb a a = true.
Proof. intros Hn. unfold SFeqb. now rewrite SFcompare_refl. Qed.

Lemma is_nan_false (x : float) :
  is_nan x = false <-> Prim2SF x <> S754_nan.
Proof.
  unfold is_nan. rewrite FloatAxioms.eqb_spec. split.
  - intros H Hn. rewrite Hn in H. discriminate.
  - intros Hn. now rewrite SFeqb_refl.
Qed.

Lemma eqb_refl_float (x : float) : is_nan x = false -> (x =? x)%float = true.
Proof. unfold is_nan. now destruct (x =? x)%float. Qed.

(** Shifting a mantissa that is not negative keeps it so. *)
Lemma shr_1_nonneg (r : shr_record) : 0 <= shr_m r -> 0 <= shr_m (shr_1 r).
Proof.
  destruct r as [m r s]; simpl. intros Hm.
  destruct m as [|p|p]; simpl; try lia.
  - destruct p; simpl; lia.
Qed.

Lemma iter_shr_1_nonneg (p : positive) (r : shr_record) :
  0 <= shr_m r -> 0 <= shr_m (SpecFloat.iter_pos shr_1 p r).
Proof.
  revert r. induction p as [p IH|p IH|]; intros r Hr; simpl.
  - apply IH, IH, shr_1_nonneg, Hr.
  - apply IH, IH, Hr.
  - apply shr_1_nonneg, Hr.
Qed.

Lemma shr_fexp_nonneg (m e : Z) (l : location) :
  0 <= m -> 0 <= shr_m (fst (shr_fexp prec emax m e l)).
Proof.
  intros Hm. unfold shr_fexp, shr.
  assert (H0 : 0 <= shr_m (shr_record_of_loc m l))
    by (destruct l as [|[| |]]; simpl; lia).
  destruct (fexp prec emax (Zdigits2 m + e) - e); simpl; auto.
  now apply iter_shr_1_nonneg.
Qed.

Lemma round_nearest_even_nonneg (m : Z) (l : location) :
  0 <= m -> 0 <= round_nearest_even m l.
Proof.
  intros Hm. unfold round_nearest_even.
  destruct l as [|[| |]]; try lia.
  destruct (IntDef.Z.even m); lia.
Qed.

Lemma binary_round_aux_not_nan (sx : bool) (mx ex : Z) (lx : location) :
  0 <= mx -> binary_round_aux prec emax sx mx ex lx <> S754_nan.
Proof.
  intros Hm. unfold binary_round_aux.
  pose proof (shr_fexp_nonneg mx ex lx Hm) as H1.
  destruct (shr_fexp prec emax mx ex lx) as [mrs' e']; simpl in H1.
  pose proof (shr_fexp_nonneg _ e' loc_Exact
                (round_nearest_even_nonneg _ (loc_of_shr_record mrs') H1)) as H2.
  destruct (shr_fexp prec emax _ e' loc_Exact) as [mrs'' e'']; simpl in H2.
  destruct (shr_m mrs'') as [|p|p]; try discriminate; try lia.
  destruct (e'' <=? emax - prec); discriminate.
Qed.

Lemma binary_normalize_not_nan (m e : Z) (sz : bool) :
  binary_normalize prec emax m e sz <> S754_nan.
Proof.
  unfold binary_normalize, binary_round.
  destruct m as [|p|p]; try discriminate.
  - destruct (shl_align p e _) as [mz ez]. apply binary_round_aux_not_nan. lia.
  - destruct (shl_align p e _) as [mz ez]. apply binary_round_aux_not_nan. lia.
Qed.

(** Adding a finite number to one that is not NaN never gives NaN. *)
Lemma SF64add_finite_not_nan (a : spec_float) (s : bool) (m : positive) (e : Z) :
  a <> S754_nan -> SF64add a (S754_finite s m e) <> S754_nan.
Proof.
  intros Ha. unfold SF64add, SFadd.
  destruct a as [sa|sa| |sa ma ea]; try congruence; try discriminate.
  apply binary_normalize_not_nan.
Qed.

Lemma SF64add_comm (a b : spec_float) : SF64add a b = SF64add b a.
Proof.
  unfold SF64add, SFadd.
  destruct a as [sa|sa| |sa ma ea], b as [sb|sb| |sb mb eb];
    try reflexivity; try (now destruct sa, sb).
  rewrite (Z.min_comm eb ea). f_equal. apply Z.add_comm.
Qed.

Lemma add_comm_float (x y : float) : (x + y)%float = (y + x)%float.
Proof. apply Prim2SF_inj. rewrite !FloatAxioms.add_spec. apply SF64add_comm. Qed.

(** [x + 0.0 == x] unless [x] is NaN. *)
Lemma add_zero_r_eqb (x : float) :
  is_nan x = false -> (x + 0 =? x)%float = true.
Proof.
  intros Hx. apply is_nan_false in Hx.
  rewrite FloatAxioms.eqb_spec, FloatAxioms.add_spec.
  change (Prim2SF 0) with (S754_zero false).
  destruct (Prim2SF x) as [s|s| |s m e]; try congruence.
  - now destruct s.
  - now destruct s.
  - simpl. apply SFeqb_refl. discriminate.
Qed.

(** [0.0 + x == x] unless [x] is NaN. *)
Lemma add_zero_l_eqb (x : float) :
  is_nan x = false -> (0 + x =? x)%float = true.
Proof. intros Hx. rewrite add_comm_float. now apply add_zero_r_eqb. Qed.

Lemma add_finite_not_nan (x c : float) (s : bool) (m : positive) (e : Z) :
  Prim2SF c = S754_finite s m e ->
  is_nan x = false -> is_nan (x + c) = false.
Proof.
  intros Hc Hx. apply is_nan_false. rewrite FloatAxioms.add_spec, Hc.
  apply SF64add_finite_not_nan. now apply is_nan_false.
Qed.

End Binary64.

(** * Running computations *)

Section Running.
Context {A B : Type}.

Lemma bind_ok (c : M A) (k : A -> M B) (w w' : World) (a : A) :
  c w = (w', Ok a) -> bind c k w = k a w'.
Proof. intros H. unfold bind. now rewrite H. Qed.

Lemma bind_raise (c : M A) (k : A -> M B) (w w' : World) (e : exn) :
  c w = (w', Raise e) -> bind c k w = (w', Raise e).
Proof. intros H. unfold bind. now rewrite H. Qed.
End Running.

Lemma getobj_run (l : loc) (w : World) (t : Time) :
  heap w !! l = Some t -> getobj l w = (w, Ok t).
Proof. intros H. unfold getobj. now rewrite H. Qed.

Lemma setobj_run (l : loc) (f : Time -> Time) (w : World) (t : Time) :
  heap w !! l = Some t ->
  setobj l f w = (mkWorld (<[l := f t]> (heap w)) (klog w), Ok tt).
Proof. intros H. unfold setobj. now rewrite H. Qed.

Lemma record_call_run (c : kcall) {R} (k : M R) (w : World) :
  (step record_call c; k) w = k (mkWorld (heap w) (c :: klog w)).
Proof. reflexivity. Qed.

Lemma Time_new_fresh (w : World) : heap w !! fresh (dom (heap w)) = None.
Proof. apply not_elem_of_dom, is_fresh. Qed.

Lemma fresh_ne (w : World) (self : loc) (t : Time) :
  heap w !! self = Some t -> fresh (dom (heap w)) <> self.
Proof. intros H E. rewrite <- E, Time_new_fresh in H. discriminate. Qed.

(** The attribute assignments of a constructor, one after the other. *)
Lemma set_all_run (l : loc) (w : World) (t : Time)
    (a b : option float) (s : option string) {R} (k : M R) :
  heap w !! l = Some t ->
  (step set_jd1 l a; step set_jd2 l b; step set_timescale l s; k) w
  = k (mkWorld (<[l := mkTime a b s]> (heap w)) (klog w)).
Proof.
  intros H. unfold set_jd1, set_jd2, set_timescale.
  erewrite bind_ok by (apply setobj_run, H). simpl.
  erewrite bind_ok by (apply setobj_run; simpl; apply lookup_insert_eq). simpl.
  erewrite bind_ok by (apply setobj_run; simpl; apply lookup_insert_eq). simpl.
  now rewrite !insert_insert_eq.
Qed.

Lemma set_jds_run (l : loc) (w : World) (t : Time) (a b : option float) {R} (k : M R) :
  heap w !! l = Some t ->
  (step set_jd1 l a; step set_jd2 l b; k) w
  = k (mkWorld (<[l := mkTime a b (timescale t)]> (heap w)) (klog w)).
Proof.
  intros H. unfold set_jd1, set_jd2.
  erewrite bind_ok by (apply setobj_run, H). simpl.
  erewrite bind_ok by (apply setobj_run; simpl; apply lookup_insert_eq). simpl.
  now rewrite !insert_insert_eq.
Qed.

(** What [Time ()] followed by [res.timescale = s] leaves. *)
Lemma new_tagged_run (s : option string) {R} (k : loc -> M R) (w : World) :
  (do res <- Time_new; step set_timescale res s; k res) w
  = k (fresh (dom (heap w)))
      (mkWorld (<[fresh (dom (heap w)) := mkTime None None s]> (heap w)) (klog w)).
Proof.
  unfold Time_new at 1, bind at 1. unfold set_timescale.
  erewrite bind_ok by (apply setobj_run; simpl; apply lookup_insert_eq).
  simpl. now rewrite insert_insert_eq.
Qed.

(** * Checks *)

Lemma checktimescale_ok (ts : string) (w : World) :
  ts ∈ _oktimescales -> _checktimescale ts w = (w, Ok tt).
Proof. intros H. unfold _checktimescale. now rewrite bool_decide_eq_true_2. Qed.

Lemma checktimescale_bad (ts : string) (w : World) :
  ts ∉ _oktimescales ->
  _checktimescale ts w
  = (w, Raise (ValueError ("illegal timescale name " ++ dq ++ ts ++ dq))).
Proof. intros H. unfold _checktimescale. now rewrite bool_decide_eq_false_2. Qed.

Lemma oktimescales_ascii (ts : string) : ts ∈ _oktimescales -> is_ascii ts = true.
Proof.
  unfold _oktimescales. rewrite elem_of_list_to_set. intros H.
  repeat (apply elem_of_cons in H as [-> | H]; [reflexivity|]).
  now apply elem_of_nil in H.
Qed.

Lemma encode_ascii_ok (ts : string) {R} (k : string -> M R) (w : World) :
  is_ascii ts = true -> (do scale <- encode_ascii ts; k scale) w = k ts w.
Proof. intros H. unfold encode_ascii. now rewrite H. Qed.

(** Every status other than zero is raised, with or without [dubiousok]:
    the second test catches what the first lets through. *)
Lemma checksofacode_nonzero (func : string) (code : Z) (d : bool) (w : World) :
  code <> 0 -> _checksofacode func code d w = (w, Raise (SofaError func code)).
Proof.
  intros Hc. unfold _checksofacode.
  destruct ((code =? 1) && negb d); [reflexivity|].
  apply Z.eqb_neq in Hc. now rewrite Hc.
Qed.

Lemma checksofacode_zero (func : string) (d : bool) (w : World) :
  _checksofacode func 0 d w = (w, Ok tt).
Proof. reflexivity. Qed.

Lemma str_is_true (v : option string) (s : string) :
  str_is v s = true <-> v = Some s.
Proof.
  destruct v as [s'|]; simpl; [|split; discriminate].
  rewrite String.eqb_eq. split; congruence.
Qed.

Lemma str_is_false (v : option string) (s : string) :
  str_is v s = false <-> v <> Some s.
Proof.
  rewrite <- str_is_true. destruct (str_is v s); split; congruence.
Qed.

(** * Julian Date and modified Julian Date round trips *)

Lemma fromJD_run (self : loc) (x : float) (ts : string) (w : World) (t0 : Time) :
  heap w !! self = Some t0 -> ts ∈ _oktimescales ->
  fromJD self x ts w
  = (mkWorld (<[self := mkTime (Some x) (Some 0%float) (Some ts)]> (heap w)) (klog w),
     Ok self).
Proof.
  intros Hs Hts. unfold fromJD.
  erewrite bind_ok by (now apply checktimescale_ok).
  now rewrite (set_all_run _ _ _ _ _ _ _ Hs).
Qed.

Lemma fromMJD_run (self : loc) (m : float) (ts : string) (w : World) (t0 : Time) :
  heap w !! self = Some t0 -> ts ∈ _oktimescales ->
  fromMJD self m ts w
  = (mkWorld (<[self := mkTime (Some 2400000.5%float) (Some m) (Some ts)]> (heap w))
             (klog w),
     Ok self).
Proof.
  intros Hs Hts. unfold fromMJD.
  erewrite bind_ok by (now apply checktimescale_ok).
  now rewrite (set_all_run _ _ _ _ _ _ _ Hs).
Qed.

Lemma asJD_run (self : loc) (w : World) (a b : float) (s : option string) :
  heap w !! self = Some (mkTime (Some a) (Some b) s) ->
  asJD self w = (w, Ok (a + b)%float).
Proof.
  intros H. unfold asJD. erewrite bind_ok by (apply getobj_run, H). reflexivity.
Qed.

Lemma asMJD_run (self : loc) (w : World) (a b : float) (s : option string) :
  heap w !! self = Some (mkTime (Some a) (Some b) s) ->
  asMJD self w = (w, Ok ((a - 2400000.5) + b)%float).
Proof.
  intros H. unfold asMJD. erewrite bind_ok by (apply getobj_run, H). reflexivity.
Qed.

Lemma roundtrip_JD_run (x : float) (ts : string) (w : World) :
  ts ∈ _oktimescales -> snd (roundtrip_JD x ts w) = Ok (x + 0)%float.
Proof.
  intros Hts. unfold roundtrip_JD, Time_new. unfold bind at 1.
  erewrite bind_ok by (eapply fromJD_run; [simpl; apply lookup_insert_eq | exact Hts]).
  erewrite asJD_run by (simpl; apply lookup_insert_eq). reflexivity.
Qed.

Lemma roundtrip_MJD_run (m : float) (ts : string) (w : World) :
  ts ∈ _oktimescales -> snd (roundtrip_MJD m ts w) = Ok (0 + m)%float.
Proof.
  intros Hts. unfold roundtrip_MJD, Time_new. unfold bind at 1.
  erewrite bind_ok by (eapply fromMJD_run; [simpl; apply lookup_insert_eq | exact Hts]).
  erewrite asMJD_run by (simpl; apply lookup_insert_eq). reflexivity.
Qed.

Lemma fromMJD_asJD_run (m : float) (ts : string) (w : World) :
  ts ∈ _oktimescales -> snd (fromMJD_asJD m ts w) = Ok (2400000.5 + m)%float.
Proof.
  intros Hts. unfold fromMJD_asJD, Time_new. unfold bind at 1.
  erewrite bind_ok by (eapply fromMJD_run; [simpl; apply lookup_insert_eq | exact Hts]).
  erewrite asJD_run by (simpl; apply lookup_insert_eq). reflexivity.
Qed.

(** C5 (amended).  For every float [x] and valid timescale name, [fromJD]
    sets [jd1 = x] and [jd2 = 0]; when [x] is not NaN, the round trip
    [Time ().fromJD (x, ts).asJD ()] returns [x + 0.0], a float that compares
    equal ([==]) to [x]. *)
Theorem fromJD_asJD_roundtrip (x : float) (ts : string) (w : World) :
  ts ∈ _oktimescales ->
  (forall self t0, heap w !! self = Some t0 ->
     exists w1, fromJD self x ts w = (w1, Ok self)
       /\ heap w1 !! self = Some (mkTime (Some x) (Some 0%float) (Some ts)))
  /\ (is_nan x = false ->
      exists y, snd (roundtrip_JD x ts w) = Ok y /\ (y =? x)%float = true).
Proof.
  intros Hts. split.
  - intros self t0 Hs. eexists. split.
    + eapply fromJD_run; eauto.
    + simpl. apply lookup_insert_eq.
  - intros Hx. exists (x + 0)%float. split.
    + now apply roundtrip_JD_run.
    + now apply add_zero_r_eqb.
Qed.

Lemma fromJD_asJD_roundtrip_witness :
  "TT"%string ∈ _oktimescales
  /\ is_nan 2451545 = false
  /\ exists y, snd (roundtrip_JD 2451545 "TT" w0) = Ok y /\ (y =? 2451545)%float = true.
Proof.
  assert (Hts : "TT"%string ∈ _oktimescales)
    by (apply (bool_decide_unpack _); vm_compute; exact I).
  split; [exact Hts|]. split; [reflexivity|].
  apply (fromJD_asJD_roundtrip 2451545 "TT" w0 Hts). reflexivity.
Defined.

(** C5 as stated fails at NaN: the round trip returns NaN, and NaN does not
    compare equal to itself. *)
Lemma fromJD_asJD_nan :
  "TT"%string ∈ _oktimescales
  /\ ~ (exists y, snd (roundtrip_JD nan "TT" w0) = Ok y /\ (y =? nan)%float = true).
Proof.
  split; [apply (bool_decide_unpack _); vm_compute; exact I|].
  intros [y [Hy Hc]]. vm_compute in Hy. injection Hy as <-.
  vm_compute in Hc. discriminate.
Qed.

(** C6 (amended).  For every float [m], [fromMJD] sets [jd1 = 2400000.5] and
    [jd2 = m]; when [m] is not NaN, [Time ().fromMJD (m, ts).asMJD ()]
    compares equal to [m] and [Time ().fromMJD (m, ts).asJD ()] compares
    equal to [m + 2400000.5]. *)
Theorem fromMJD_roundtrip (m : float) (ts : string) (w : World) :
  ts ∈ _oktimescales ->
  (forall self t0, heap w !! self = Some t0 ->
     exists w1, fromMJD self m ts w = (w1, Ok self)
       /\ heap w1 !! self = Some (mkTime (Some 2400000.5%float) (Some m) (Some ts)))
  /\ (is_nan m = false ->
      (exists y, snd (roundtrip_MJD m ts w) = Ok y /\ (y =? m)%float = true)
      /\ (exists y, snd (fromMJD_asJD m ts w) = Ok y
                    /\ (y =? m + 2400000.5)%float = true)).
Proof.
  intros Hts. split.
  - intros self t0 Hs. eexists. split.
    + eapply fromMJD_run; eauto.
    + simpl. apply lookup_insert_eq.
  - intros Hm. split.
    + exists (0 + m)%float. split; [now apply roundtrip_MJD_run|].
      now apply add_zero_l_eqb.
    + exists (2400000.5 + m)%float. split; [now apply fromMJD_asJD_run|].
      rewrite (add_comm_float 2400000.5 m). apply eqb_refl_float.
      apply (add_finite_not_nan m 2400000.5 false 5153961828941824 (-31));
        [reflexivity | exact Hm].
Qed.

Lemma fromMJD_roundtrip_witness :
  "TT"%string ∈ _oktimescales
  /\ is_nan 51544.5 = false
  /\ (exists y, snd (roundtrip_MJD 51544.5 "TT" w0) = Ok y /\ (y =? 51544.5)%float = true)
  /\ (exists y, snd (fromMJD_asJD 51544.5 "TT" w0) = Ok y
                /\ (y =? 51544.5 + 2400000.5)%float = true).
Proof.
  assert (Hts : "TT"%string ∈ _oktimescales)
    by (apply (bool_decide_unpack _); vm_compute; exact I).
  split; [exact Hts|]. split; [reflexivity|].
  apply (fromMJD_roundtrip 51544.5 "TT" w0 Hts). reflexivity.
Defined.

(** C6 as stated fails at NaN: [asMJD] returns NaN, which does not compare
    equal to the NaN that went in. *)
Lemma fromMJD_asMJD_nan :
  "TT"%string ∈ _oktimescales
  /\ ~ (exists y, snd (roundtrip_MJD nan "TT" w0) = Ok y /\ (y =? nan)%float = true).
Proof.
  split; [apply (bool_decide_unpack _); vm_compute; exact I|].
  intros [y [Hy Hc]]. vm_compute in Hy. injection Hy as <-.
  vm_compute in Hc. discriminate.
Qed.

(** * Conversion to TT and to TDB *)

Section ConversionFacts.
Variable K : Kernel.

Lemma asTT_TT_run (self : loc) (d : bool) (w : World) (t : Time) :
  heap w !! self = Some t -> timescale t = Some "TT"%string ->
  asTT K self d w
  = (mkWorld (<[fresh (dom (heap w)) := mkTime (jd1 t) (jd2 t) (Some "TT"%string)]>
                (heap w))
             (klog w),
     Ok (fresh (dom (heap w)))).
Proof.
  intros Hs Hts. unfold asTT. rewrite new_tagged_run.
  erewrite bind_ok
    by (apply getobj_run; simpl; rewrite lookup_insert_ne by (eapply fresh_ne, Hs);
        exact Hs).
  rewrite (proj2 (str_is_true _ _) Hts).
  erewrite set_jds_run by (simpl; apply lookup_insert_eq).
  simpl. now rewrite insert_insert_eq.
Qed.

Lemma asTT_unsupported_run (self : loc) (d : bool) (w : World) (t : Time) :
  heap w !! self = Some t ->
  timescale t <> Some "TT"%string -> timescale t <> Some "TAI"%string ->
  timescale t <> Some "UTC"%string ->
  asTT K self d w
  = (mkWorld (<[fresh (dom (heap w)) := mkTime None None (Some "TT"%string)]> (heap w))
             (klog w),
     Raise (UnsupportedTimescaleError (timescale t))).
Proof.
  intros Hs H1 H2 H3. unfold asTT. rewrite new_tagged_run.
  erewrite bind_ok
    by (apply getobj_run; simpl; rewrite lookup_insert_ne by (eapply fresh_ne, Hs);
        exact Hs).
  apply str_is_false in H1, H2, H3. now rewrite H1, H2, H3.
Qed.

(** With the kernel's status at zero, [asTT] returns a new instance tagged
    TT, whatever [dubiousok] is. *)
Lemma asTT_convertible_run (self : loc) (d : bool) (w : World) (t : Time) :
  heap w !! self = Some t -> tt_convertible K t = true ->
  exists w' r,
    asTT K self d w = (w', Ok (fresh (dom (heap w))))
    /\ heap w' !! fresh (dom (heap w)) = Some r
    /\ timescale r = Some "TT"%string
    /\ heap w' !! self = Some t.
Proof.
  intros Hs Hc. pose proof (fresh_ne w self t Hs) as Hne.
  unfold asTT. rewrite new_tagged_run.
  erewrite bind_ok
    by (apply getobj_run; simpl; rewrite lookup_insert_ne by exact Hne; exact Hs).
  unfold tt_convertible in Hc.
  destruct (str_is (timescale t) "TT").
  { erewrite set_jds_run by (simpl; apply lookup_insert_eq).
    eexists _, _. split; [reflexivity|]. simpl.
    rewrite !insert_insert_eq, lookup_insert_eq, lookup_insert_ne by exact Hne.
    eauto. }
  destruct (str_is (timescale t) "TAI").
  { destruct (jd1 t) as [a|]; [|discriminate].
    destruct (jd2 t) as [b|]; [|discriminate]. simpl as_float.
    unfold bind at 1, ret at 1. unfold bind at 1, ret at 1.
    unfold status in Hc.
    destruct (iauTaitt K a b) as [[c r1] r2]. simpl in Hc.
    apply Z.eqb_eq in Hc. subst c.
    rewrite record_call_run.
    erewrite set_jds_run by (simpl; apply lookup_insert_eq).
    eexists _, _. split; [reflexivity|]. simpl.
    rewrite !insert_insert_eq, lookup_insert_eq, lookup_insert_ne by exact Hne.
    eauto. }
  destruct (str_is (timescale t) "UTC"); [|discriminate].
  destruct (jd1 t) as [a|]; [|discriminate].
  destruct (jd2 t) as [b|]; [|discriminate]. simpl as_float.
  unfold bind at 1, ret at 1. unfold bind at 1, ret at 1.
  destruct (iauUtctai K a b) as [[c r1] r2].
  apply andb_prop in Hc as [Hc1 Hc2]. unfold status in Hc2.
  destruct (iauTaitt K r1 r2) as [[c' q1] q2]. simpl in Hc2.
  apply Z.eqb_eq in Hc1, Hc2. subst c c'.
  rewrite record_call_run.
  erewrite set_jds_run by (simpl; apply lookup_insert_eq).
  erewrite bind_ok by apply checksofacode_zero.
  rewrite record_call_run.
  erewrite set_jds_run by (simpl; apply lookup_insert_eq).
  eexists _, _. split; [reflexivity|]. simpl.
  rewrite !insert_insert_eq, lookup_insert_eq, lookup_insert_ne by exact Hne.
  eauto.
Qed.

(** [asTT] returns only for the times [tt_convertible] accepts. *)
Lemma asTT_ok_convertible (self : loc) (d : bool) (w w' : World) (t : Time) (res : loc) :
  heap w !! self = Some t ->
  asTT K self d w = (w', Ok res) -> tt_convertible K t = true.
Proof.
  intros Hs. pose proof (fresh_ne w self t Hs) as Hne.
  unfold asTT, tt_convertible. rewrite new_tagged_run.
  erewrite bind_ok
    by (apply getobj_run; simpl; rewrite lookup_insert_ne by exact Hne; exact Hs).
  destruct (str_is (timescale t) "TT"); [reflexivity|].
  destruct (str_is (timescale t) "TAI").
  { destruct (jd1 t) as [a|]; [|discriminate].
    destruct (jd2 t) as [b|]; [|discriminate]. simpl as_float.
    unfold bind at 1, ret at 1. unfold bind at 1, ret at 1. unfold status.
    destruct (iauTaitt K a b) as [[c r1] r2]. simpl fst.
    rewrite record_call_run.
    erewrite set_jds_run by (simpl; apply lookup_insert_eq).
    destruct (Z.eq_dec c 0) as [->|Hc]; [reflexivity|].
    erewrite bind_raise by (now apply checksofacode_nonzero). discriminate. }
  destruct (str_is (timescale t) "UTC"); [|discriminate].
  destruct (jd1 t) as [a|]; [|discriminate].
  destruct (jd2 t) as [b|]; [|discriminate]. simpl as_float.
  unfold bind at 1, ret at 1. unfold bind at 1, ret at 1. unfold status.
  destruct (iauUtctai K a b) as [[c r1] r2].
  destruct (iauTaitt K r1 r2) as [[c' q1] q2]. simpl fst.
  rewrite record_call_run.
  erewrite set_jds_run by (simpl; apply lookup_insert_eq).
  destruct (Z.eq_dec c 0) as [->|Hc];
    [|erewrite bind_raise by (now apply checksofacode_nonzero); discriminate].
  erewrite bind_ok by apply checksofacode_zero.
  rewrite record_call_run.
  erewrite set_jds_run by (simpl; apply lookup_insert_eq).
  destruct (Z.eq_dec c' 0) as [->|Hc']; [reflexivity|].
  erewrite bind_raise by (now apply checksofacode_nonzero). discriminate.
Qed.

(** So [tt_convertible] says exactly when [asTT] returns. *)
Lemma asTT_returns_iff (self : loc) (d : bool) (w : World) (t : Time) :
  heap w !! self = Some t ->
  (exists w' res, asTT K self d w = (w', Ok res)) <-> tt_convertible K t = true.
Proof.
  intros Hs. split.
  - intros (w' & res & Hrun). exact (asTT_ok_convertible self d w w' t res Hs Hrun).
  - intros Hc. destruct (asTT_convertible_run self d w t Hs Hc) as (w' & r & Hrun & _).
    eauto.
Qed.

Lemma asTDB_TDB_run (self : loc) (ttok : bool) (w : World) (t : Time) :
  heap w !! self = Some t -> timescale t = Some "TDB"%string ->
  asTDB K self ttok w
  = (mkWorld (<[fresh (dom (heap w)) := mkTime (jd1 t) (jd2 t) (Some "TDB"%string)]>
                (heap w))
             (klog w),
     Ok (fresh (dom (heap w)))).
Proof.
  intros Hs Hts. unfold asTDB.
  erewrite bind_ok by (apply getobj_run, Hs).
  rewrite (proj2 (str_is_true _ _) Hts).
  rewrite new_tagged_run.
  erewrite set_jds_run by (simpl; apply lookup_insert_eq).
  simpl. now rewrite insert_insert_eq.
Qed.

Lemma asTDB_other_run (self : loc) (ttok : bool) (w : World) (t : Time) :
  heap w !! self = Some t -> timescale t <> Some "TDB"%string ->
  asTDB K self ttok w
  = if ttok then asTT K self false w
    else (w, Raise (UnsupportedTimescaleError (timescale t))).
Proof.
  intros Hs Hts. unfold asTDB.
  erewrite bind_ok by (apply getobj_run, Hs).
  rewrite (proj2 (str_is_false _ _) Hts). now destruct ttok.
Qed.

End ConversionFacts.

(** C7.  For a [Time] whose timescale is TT, [asTT] returns a new instance
    (an address the store did not hold) whose [jd1], [jd2] and [timescale]
    equal those of the input; the input and every other instance are left
    as they were, and the kernel is not called. *)
Theorem asTT_of_TT_is_copy (K : Kernel) (self : loc) (d : bool) (w : World) (t : Time) :
  heap w !! self = Some t -> timescale t = Some "TT"%string ->
  exists res w',
    asTT K self d w = (w', Ok res)
    /\ heap w !! res = None
    /\ heap w' !! res = Some (mkTime (jd1 t) (jd2 t) (timescale t))
    /\ heap w' !! self = Some t
    /\ (forall l, l <> res -> heap w' !! l = heap w !! l)
    /\ klog w' = klog w.
Proof.
  intros Hs Hts. eexists _, _.
  split; [exact (asTT_TT_run K self d w t Hs Hts)|]. simpl.
  pose proof (fresh_ne w self t Hs) as Hne.
  repeat split.
  - apply Time_new_fresh.
  - rewrite Hts. apply lookup_insert_eq.
  - now rewrite lookup_insert_ne.
  - intros l Hl. now rewrite lookup_insert_ne.
Qed.

Lemma asTT_of_TT_is_copy_witness :
  exists res w',
    asTT sample_kernel 1 false (world_with (j2000 "TT")) = (w', Ok res)
    /\ heap (world_with (j2000 "TT")) !! res = None
    /\ heap w' !! res = Some (j2000 "TT")
    /\ heap w' !! 1%positive = Some (j2000 "TT")
    /\ (forall l, l <> res -> heap w' !! l = heap (world_with (j2000 "TT")) !! l)
    /\ klog w' = klog (world_with (j2000 "TT")).
Proof.
  apply (asTT_of_TT_is_copy sample_kernel 1 false (world_with (j2000 "TT")) (j2000 "TT"));
    reflexivity.
Defined.

(** C4.  For a [Time] whose timescale is none of TT, TAI and UTC, [asTT]
    raises [UnsupportedTimescaleError], and the error carries the timescale
    of the input. *)
Theorem asTT_unsupported_timescale (K : Kernel) (self : loc) (d : bool)
    (w : World) (t : Time) :
  heap w !! self = Some t ->
  timescale t <> Some "TT"%string -> timescale t <> Some "TAI"%string ->
  timescale t <> Some "UTC"%string ->
  snd (asTT K self d w) = Raise (UnsupportedTimescaleError (timescale t)).
Proof. intros Hs H1 H2 H3. now rewrite (asTT_unsupported_run K self d w t). Qed.

Lemma asTT_unsupported_timescale_witness :
  snd (asTT sample_kernel 1 false (world_with (j2000 "UT1")))
  = Raise (UnsupportedTimescaleError (Some "UT1"%string)).
Proof.
  apply (asTT_unsupported_timescale sample_kernel 1 false
           (world_with (j2000 "UT1")) (j2000 "UT1"));
    [reflexivity | discriminate | discriminate | discriminate].
Defined.

(** C2.  For a [Time] whose timescale is TDB, [asTDB] returns a new instance
    with the same [jd1] and [jd2], tagged TDB.  For a [Time] that is not TDB
    and converts to TT (TT itself, or TAI or UTC with the kernel's status at
    zero), [asTDB] with [ttok = True] returns an instance tagged TT, not TDB,
    and with [ttok = False] raises [UnsupportedTimescaleError]. *)
Theorem asTDB_tagging (K : Kernel) (self : loc) (w : World) (t : Time) :
  heap w !! self = Some t ->
  (timescale t = Some "TDB"%string -> forall ttok,
     exists res w',
       asTDB K self ttok w = (w', Ok res)
       /\ heap w !! res = None
       /\ heap w' !! res = Some (mkTime (jd1 t) (jd2 t) (Some "TDB"%string)))
  /\ (timescale t <> Some "TDB"%string -> tt_convertible K t = true ->
      (exists res w' r,
         asTDB K self true w = (w', Ok res)
         /\ heap w !! res = None
         /\ heap w' !! res = Some r
         /\ timescale r = Some "TT"%string)
      /\ snd (asTDB K self false w) = Raise (UnsupportedTimescaleError (timescale t))).
Proof.
  intros Hs. split.
  - intros Hts ttok. eexists _, _.
    split; [exact (asTDB_TDB_run K self ttok w t Hs Hts)|].
    split; [apply Time_new_fresh|]. simpl. apply lookup_insert_eq.
  - intros Hts Hc. split.
    + destruct (asTT_convertible_run K self false w t Hs Hc)
        as (w' & r & Hrun & Hr & Htag & _).
      exists (fresh (dom (heap w))), w', r.
      rewrite (asTDB_other_run K self true w t Hs Hts).
      repeat split; auto. apply Time_new_fresh.
    + now rewrite (asTDB_other_run K self false w t Hs Hts).
Qed.

Lemma asTDB_tagging_witness :
  (forall ttok, exists res w',
     asTDB sample_kernel 1 ttok (world_with (j2000 "TDB")) = (w', Ok res)
     /\ heap (world_with (j2000 "TDB")) !! res = None
     /\ heap w' !! res = Some (j2000 "TDB"))
  /\ tt_convertible sample_kernel (j2000 "TAI") = true
  /\ (exists res w' r,
        asTDB sample_kernel 1 true (world_with (j2000 "TAI")) = (w', Ok res)
        /\ heap (world_with (j2000 "TAI")) !! res = None
        /\ heap w' !! res = Some r
        /\ timescale r = Some "TT"%string)
  /\ snd (asTDB sample_kernel 1 false (world_with (j2000 "TAI")))
     = Raise (UnsupportedTimescaleError (Some "TAI"%string)).
Proof.
  split; [|split; [reflexivity|]].
  - apply (proj1 (asTDB_tagging sample_kernel 1 (world_with (j2000 "TDB"))
                    (j2000 "TDB") eq_refl)).
    reflexivity.
  - apply (proj2 (asTDB_tagging sample_kernel 1 (world_with (j2000 "TAI"))
                    (j2000 "TAI") eq_refl)).
    + discriminate.
    + reflexivity.
Defined.

(** * Construction from calendar fields *)

(** Everything [fromcalendar] does once the timescale name is accepted: both
    Julian Date components are stored before the status is looked at, the
    timescale after. *)
Lemma fromcalendar_checked_run (K : Kernel) (self : loc)
    (year month day hour minute : Z) (second : float) (ts : string) (d : bool)
    (w : World) (t0 : Time) :
  heap w !! self = Some t0 -> ts ∈ _oktimescales ->
  fromcalendar K self year month day hour minute second ts d w
  = let '(code, d1, d2) := iauDtf2d K ts year month day hour minute second in
    let log := KiauDtf2d ts year month day hour minute second :: klog w in
    if code =? 0
    then (mkWorld (<[self := mkTime (Some d1) (Some d2) (Some ts)]> (heap w)) log,
          Ok self)
    else (mkWorld (<[self := mkTime (Some d1) (Some d2) (timescale t0)]> (heap w)) log,
          Raise (SofaError "dtf2d" code)).
Proof.
  intros Hs Hts. unfold fromcalendar.
  erewrite bind_ok by (now apply checktimescale_ok).
  rewrite encode_ascii_ok by (now apply oktimescales_ascii).
  destruct (iauDtf2d K ts year month day hour minute second) as [[code d1] d2].
  rewrite record_call_run.
  erewrite set_jds_run by (simpl; exact Hs).
  destruct (code =? 0) eqn:Hc.
  - apply Z.eqb_eq in Hc. subst code.
    erewrite bind_ok by apply checksofacode_zero.
    unfold set_timescale.
    erewrite bind_ok by (apply setobj_run; simpl; apply lookup_insert_eq).
    simpl. now rewrite insert_insert_eq.
  - apply Z.eqb_neq in Hc.
    erewrite bind_raise by (now apply checksofacode_nonzero). reflexivity.
Qed.

(** The dubious-year status is raised like any other, for every kernel,
    every accepted input and either value of [dubiousok]. *)
Lemma fromcalendar_dubious_raises (K : Kernel) (self : loc)
    (year month day hour minute : Z) (second : float) (ts : string) (d : bool)
    (w : World) (t0 : Time) :
  heap w !! self = Some t0 -> ts ∈ _oktimescales ->
  status (iauDtf2d K ts year month day hour minute second) = 1 ->
  snd (fromcalendar K self year month day hour minute second ts d w)
  = Raise (SofaError "dtf2d" 1).
Proof.
  intros Hs Hts Hst.
  rewrite (fromcalendar_checked_run K _ _ _ _ _ _ _ _ _ _ t0 Hs Hts).
  unfold status in Hst.
  destruct (iauDtf2d K ts year month day hour minute second) as [[c d1] d2].
  simpl in Hst. now subst c.
Qed.

(** C10.  When [fromcalendar] raises [SofaError], the kernel's status was
    not zero, [jd1] and [jd2] of the instance hold what the kernel returned,
    and [timescale] is what it was before the call. *)
Theorem fromcalendar_failure_state (K : Kernel) (self : loc)
    (year month day hour minute : Z) (second : float) (ts : string) (d : bool)
    (w w' : World) (t0 : Time) (func : string) (code : Z) :
  heap w !! self = Some t0 ->
  fromcalendar K self year month day hour minute second ts d w
    = (w', Raise (SofaError func code)) ->
  code <> 0
  /\ exists d1 d2,
       iauDtf2d K ts year month day hour minute second = (code, d1, d2)
       /\ heap w' !! self = Some (mkTime (Some d1) (Some d2) (timescale t0)).
Proof.
  intros Hs Hrun.
  destruct (decide (ts ∈ _oktimescales)) as [Hts|Hts].
  - rewrite (fromcalendar_checked_run K _ _ _ _ _ _ _ _ _ _ t0 Hs Hts) in Hrun.
    destruct (iauDtf2d K ts year month day hour minute second) as [[c d1] d2].
    destruct (c =? 0) eqn:Hc; [discriminate|].
    injection Hrun as <- _ <-. apply Z.eqb_neq in Hc. split; [exact Hc|].
    exists d1, d2. split; [reflexivity|]. simpl. apply lookup_insert_eq.
  - unfold fromcalendar in Hrun.
    erewrite bind_raise in Hrun by (now apply checktimescale_bad). discriminate.
Qed.

Lemma fromcalendar_failure_state_witness :
  1 <> 0
  /\ exists d1 d2,
       iauDtf2d sample_kernel "UTC" 1900 1 1 12 0 0 = (1, d1, d2)
       /\ heap (fst (fromcalendar sample_kernel 1 1900 1 1 12 0 0 "UTC" false
                       (world_with (j2000 "TT")))) !! 1%positive
          = Some (mkTime (Some d1) (Some d2) (Some "TT"%string)).
Proof.
  apply (fromcalendar_failure_state sample_kernel 1 1900 1 1 12 0 0 "UTC" false
           (world_with (j2000 "TT")) _ (j2000 "TT") "dtf2d" 1).
  - reflexivity.
  - vm_compute. reflexivity.
Defined.

(** C1 on a run.  The kernel reports the dubious-year status 1 for the UTC
    date 1900-01-01 12:00:00; [fromcalendar] raises [SofaError] with
    [dubiousok = False], and raises it as well with [dubiousok = True]. *)
Theorem fromcalendar_dubious_year_optin :
  status (iauDtf2d sample_kernel "UTC" 1900 1 1 12 0 0) = 1
  /\ snd ((do t <- Time_new;
           fromcalendar sample_kernel t 1900 1 1 12 0 0 "UTC" false) w0)
     = Raise (SofaError "dtf2d" 1)
  /\ snd ((do t <- Time_new;
           fromcalendar sample_kernel t 1900 1 1 12 0 0 "UTC" true) w0)
     = Raise (SofaError "dtf2d" 1).
Proof. repeat split; vm_compute; reflexivity. Qed.

(** * Ephemeris objects *)

Lemma ephemnums_keys : (fst <$> map_to_list _ephemnums) ≡ₚ spec_bodies.
Proof.
  unfold _ephemnums. rewrite map_to_list_to_map.
  - reflexivity.
  - vm_compute.
    repeat (constructor;
            [rewrite ?elem_of_cons, elem_of_nil; intuition discriminate|]).
    constructor.
Qed.

Lemma ephemnums_unknown (name : string) :
  name ∉ spec_bodies <-> _ephemnums !! name = None.
Proof. unfold _ephemnums. now rewrite <- not_elem_of_list_to_map. Qed.

Lemma ephemnums_known (name : string) :
  name ∈ spec_bodies -> exists num, _ephemnums !! name = Some num /\ 1 <= num <= 11.
Proof.
  unfold spec_bodies. intros H.
  repeat (apply elem_of_cons in H as [-> | H];
          [eexists; split; [vm_compute; reflexivity | lia] |]).
  now apply elem_of_nil in H.
Qed.

(** C8.  Constructing an [EphemObject] with a name outside the enumeration
    raises [ValueError] with the store and the record of kernel routines
    untouched: no routine of the kernel was invoked (the handle structure
    alone was allocated).  With a name of the enumeration, [make_object] is
    invoked with type 0 and the integer [_ephemnums] gives the name, and the
    construction returns the object when the routine reports zero. *)
Theorem EphemObject_init_checks_name (K : Kernel) (name : string) (w : World) :
  (name ∉ spec_bodies ->
     EphemObject_init K name w
     = (w, Raise (ValueError ("unrecognized ephemeris object name " ++ dq ++ name ++ dq))))
  /\ (name ∈ spec_bodies ->
      exists num code handle,
        _ephemnums !! name = Some num
        /\ make_object K 0 num " " None new_novas_object = (code, handle)
        /\ EphemObject_init K name w
           = (mkWorld (heap w) (Kmake_object 0 num :: klog w),
              if code =? 0 then Ok (mkEphem handle)
              else Raise (NovasError "make_object" code))).
Proof.
  split.
  - intros Hn. apply ephemnums_unknown in Hn. unfold EphemObject_init.
    now rewrite Hn.
  - intros Hin. destruct (ephemnums_known name Hin) as (num & Hnum & _).
    destruct (make_object K 0 num " " None new_novas_object) as [code handle] eqn:Hm.
    exists num, code, handle. split; [exact Hnum|]. split; [exact Hm|].
    unfold EphemObject_init. rewrite Hnum, Hm.
    rewrite record_call_run. now destruct (code =? 0).
Qed.

Lemma EphemObject_init_checks_name_witness :
  EphemObject_init sample_kernel "vulcan" w0
  = (w0, Raise (ValueError ("unrecognized ephemeris object name " ++ dq ++ "vulcan" ++ dq)))
  /\ exists num code handle,
       _ephemnums !! "earth"%string = Some num
       /\ make_object sample_kernel 0 num " " None new_novas_object = (code, handle)
       /\ EphemObject_init sample_kernel "earth" w0
          = (mkWorld (heap w0) (Kmake_object 0 num :: klog w0),
             if code =? 0 then Ok (mkEphem handle)
             else Raise (NovasError "make_object" code)).
Proof.
  split.
  - apply (proj1 (EphemObject_init_checks_name sample_kernel "vulcan" w0)).
    apply (bool_decide_unpack _). vm_compute. exact I.
  - apply (proj2 (EphemObject_init_checks_name sample_kernel "earth" w0)).
    apply (bool_decide_unpack _). vm_compute. exact I.
Defined.

(** * Barycentric correction *)

Section BarycentricFacts.
Variable K : Kernel.
Variable dir : string.

(** A time that [asTDB] returned is tagged TDB, or TT when [ttok] allowed
    it. *)
Lemma asTDB_ok_tag (self : loc) (ttok : bool) (w w' : World) (t : Time) (res : loc) :
  heap w !! self = Some t ->
  asTDB K self ttok w = (w', Ok res) ->
  res = fresh (dom (heap w))
  /\ heap w' !! self = Some t
  /\ exists r, heap w' !! res = Some r
       /\ (timescale r = Some "TDB"%string
           \/ (ttok = true /\ timescale r = Some "TT"%string)).
Proof.
  intros Hs Hrun. pose proof (fresh_ne w self t Hs) as Hne.
  destruct (decide (timescale t = Some "TDB"%string)) as [Hts|Hts].
  - rewrite (asTDB_TDB_run K self ttok w t Hs Hts) in Hrun.
    injection Hrun as <- <-. simpl.
    rewrite lookup_insert_eq, lookup_insert_ne by exact Hne. eauto 6.
  - rewrite (asTDB_other_run K self ttok w t Hs Hts) in Hrun.
    destruct ttok; [|discriminate].
    pose proof (asTT_ok_convertible _ _ _ _ _ _ _ Hs Hrun) as Hc.
    destruct (asTT_convertible_run K self false w t Hs Hc)
      as (w1 & r & Hrun' & Hr & Htag & Hself).
    rewrite Hrun' in Hrun. injection Hrun as <- <-. eauto 8.
Qed.

(** Converting such a time once more copies it. *)
Lemma asTDB_again (tdb : loc) (ttok : bool) (w : World) (r : Time) :
  heap w !! tdb = Some r ->
  timescale r = Some "TDB"%string \/ (ttok = true /\ timescale r = Some "TT"%string) ->
  asTDB K tdb ttok w
  = (mkWorld (<[fresh (dom (heap w)) := mkTime (jd1 r) (jd2 r) (timescale r)]> (heap w))
             (klog w),
     Ok (fresh (dom (heap w)))).
Proof.
  intros Hr [Htag | [-> Htag]].
  - rewrite (asTDB_TDB_run K tdb ttok w r Hr Htag). now rewrite Htag.
  - rewrite (asTDB_other_run K tdb true w r Hr) by (rewrite Htag; discriminate).
    rewrite (asTT_TT_run K tdb false w r Hr Htag). now rewrite Htag.
Qed.


Lemma open_ephem_run (w : World) :
  ephem_open K (dir ++ "/" ++ "_precastro-DEc421.dat") = 0 ->
  _open_ephem K dir w
  = (mkWorld (heap w) (Kephem_open (dir ++ "/" ++ "_precastro-DEc421.dat") :: klog w),
     Ok tt).
Proof. intros H. unfold _open_ephem. rewrite H. now rewrite record_call_run. Qed.


End BarycentricFacts.



(** * Decimal formatting *)

Section Formatting.















End Formatting.



(** * Instances a method leaves alone *)

Section Keeps.
Context {A B : Type}.

Lemma keeps_ret (X : gset loc) (a : A) (Q : A -> Prop) :
  Q a -> keeps X (ret a) Q.
Proof.
  intros Ha w w' r HX Hrun. injection Hrun as <- <-.
  repeat split; auto. now intros a' [= <-].
Qed.

Lemma keeps_raise (X : gset loc) (e : exn) (Q : A -> Prop) :
  keeps X (raise e) Q.
Proof.
  intros w w' r HX Hrun. injection Hrun as <- <-.
  repeat split; auto. discriminate.
Qed.

Lemma keeps_bind (X : gset loc) (c : M A) (k : A -> M B)
    (Q : A -> Prop) (Q' : B -> Prop) :
  keeps X c Q -> (forall a, Q a -> keeps X (k a) Q') -> keeps X (bind c k) Q'.
Proof.
  intros Hc Hk w w' r HX Hrun. unfold bind in Hrun.
  destruct (c w) as [w1 [a|e]] eqn:Hcw.
  - destruct (Hc w w1 (Ok a) HX Hcw) as (F1 & D1 & Q1).
    destruct (Hk a (Q1 a eq_refl) w1 w' r D1 Hrun) as (F2 & D2 & Q2).
    repeat split; auto. intros l Hl. now rewrite F2, F1.
  - destruct (Hc w w1 (Raise e) HX Hcw) as (F1 & D1 & _).
    injection Hrun as <- <-. repeat split; auto. discriminate.
Qed.

Lemma keeps_weaken (X : gset loc) (c : M A) (Q Q' : A -> Prop) :
  keeps X c Q -> (forall a, Q a -> Q' a) -> keeps X c Q'.
Proof.
  intros Hc HQ w w' r HX Hrun. destruct (Hc w w' r HX Hrun) as (F & D & Q1).
  repeat split; auto.
Qed.

End Keeps.

Lemma keeps_Time_new (X : gset loc) : keeps X Time_new (fun l => l ∉ X).
Proof.
  intros w w' r HX Hrun. unfold Time_new in Hrun. injection Hrun as <- <-. simpl.
  assert (Hf : fresh (dom (heap w)) ∉ X)
    by (intros Hin; exact (is_fresh (dom (heap w)) (HX _ Hin))).
  repeat split.
  - intros l Hl. rewrite lookup_insert_ne; [reflexivity|]. intros E. subst l. exact (Hf Hl).
  - rewrite dom_insert_L. set_solver.
  - now intros a [= <-].
Qed.

Lemma keeps_getobj (X : gset loc) (l : loc) : keeps X (getobj l) (fun _ => True).
Proof.
  intros w w' r HX Hrun. unfold getobj in Hrun.
  destruct (heap w !! l); injection Hrun as <- <-; repeat split; auto.
Qed.

Lemma keeps_setobj (X : gset loc) (l : loc) (f : Time -> Time) :
  l ∉ X -> keeps X (setobj l f) (fun _ => True).
Proof.
  intros Hl w w' r HX Hrun. unfold setobj in Hrun.
  destruct (heap w !! l) eqn:E; injection Hrun as <- <-; simpl;
    repeat split; auto.
  - intros l' Hl'. rewrite lookup_insert_ne; [reflexivity|]. intros ->. exact (Hl Hl').
  - rewrite dom_insert_L. set_solver.
Qed.

Lemma keeps_record_call (X : gset loc) (c : kcall) : keeps X (record_call c) (fun _ => True).
Proof.
  intros w w' r HX Hrun. unfold record_call in Hrun. injection Hrun as <- <-.
  repeat split; auto.
Qed.

Lemma keeps_checksofacode (X : gset loc) (func : string) (code : Z) (d : bool) :
  keeps X (_checksofacode func code d) (fun _ => True).
Proof.
  unfold _checksofacode.
  destruct ((code =? 1) && negb d); [apply keeps_raise|].
  destruct (negb (code =? 0)); [apply keeps_raise | now apply keeps_ret].
Qed.

Lemma keeps_checktimescale (X : gset loc) (ts : string) :
  keeps X (_checktimescale ts) (fun _ => True).
Proof.
  unfold _checktimescale.
  destruct (bool_decide (ts ∈ _oktimescales)); [now apply keeps_ret | apply keeps_raise].
Qed.

Lemma keeps_encode_ascii (X : gset loc) (ts : string) :
  keeps X (encode_ascii ts) (fun _ => True).
Proof.
  unfold encode_ascii. destruct (is_ascii ts); [now apply keeps_ret | apply keeps_raise].
Qed.

Lemma keeps_as_float (X : gset loc) (v : option float) :
  keeps X (as_float v) (fun _ => True).
Proof. destruct v; [now apply keeps_ret | apply keeps_raise]. Qed.

(** One step of a method body: sequencing, the primitives, and the case
    distinctions on statuses and attributes. *)
Ltac keeps_step :=
  first
    [ apply keeps_raise
    | apply keeps_ret; solve [auto]
    | apply keeps_getobj
    | apply keeps_record_call
    | apply keeps_checksofacode
    | apply keeps_checktimescale
    | apply keeps_encode_ascii
    | apply keeps_as_float
    | apply keeps_setobj; solve [auto]
    | eapply keeps_bind; [|intros ? ?]
    | match goal with
      | |- keeps _ (if ?b then _ else _) _ => destruct b
      | |- keeps _ (let '(_, _) := ?p in _) _ => destruct p
      | |- keeps _ (match ?p with _ => _ end) _ => destruct p
      end ].

Section KeepsMethods.
Variable K : Kernel.
Variable X : gset loc.

Lemma keeps_asTT (self : loc) (d : bool) :
  keeps X (asTT K self d) (fun res => res ∉ X).
Proof.
  unfold asTT, set_jd1, set_jd2, set_timescale.
  eapply keeps_bind; [apply keeps_Time_new|]. intros res Hres.
  repeat keeps_step.
Qed.

Lemma keeps_asTDB (self : loc) (ttok : bool) :
  keeps X (asTDB K self ttok) (fun res => res ∉ X).
Proof.
  unfold asTDB, set_jd1, set_jd2, set_timescale.
  eapply keeps_bind; [apply keeps_getobj|]. intros t _.
  destruct (str_is (timescale t) "TDB").
  - eapply keeps_bind; [apply keeps_Time_new|]. intros res Hres.
    repeat keeps_step.
  - destruct (negb ttok); [apply keeps_raise | apply keeps_asTT].
Qed.

End KeepsMethods.

Section KeepsPlaces.
Variable K : Kernel.
Variable P : PlaceKernel.
Variables H2R D2R R2H R2D : float.
Variables cos sin : float -> float.
Variable dir : string.
Variable X : gset loc.

Lemma keeps_asJD (self : loc) : keeps X (asJD self) (fun _ => True).
Proof. unfold asJD. repeat keeps_step. Qed.

Lemma keeps_EphemObject_init (name : string) :
  keeps X (EphemObject_init K name) (fun _ => True).
Proof. unfold EphemObject_init. cbv zeta. repeat keeps_step. Qed.

Lemma keeps_open_ephem : keeps X (_open_ephem K dir) (fun _ => True).
Proof. unfold _open_ephem. cbv zeta. repeat keeps_step. Qed.

Lemma keeps_ephem (self : EphemObject) (time : loc) (ttok : bool) :
  keeps X (ephem K dir self time ttok) (fun _ => True).
Proof.
  unfold ephem.
  eapply keeps_bind; [apply keeps_asTDB|]. intros tdb _.
  eapply keeps_bind; [apply keeps_open_ephem|]. intros _ _.
  repeat keeps_step.
Qed.

Lemma keeps_asBJD (self : loc) (obj : SiderealObject) (ttok : bool) :
  keeps X (asBJD K H2R D2R cos sin dir self obj ttok) (fun res => res ∉ X).
Proof.
  unfold asBJD, set_jd2.
  eapply keeps_bind; [apply keeps_EphemObject_init|]. intros earth _.
  eapply keeps_bind; [apply keeps_asTDB|]. intros tdb Htdb. cbv zeta.
  eapply keeps_bind; [apply keeps_ephem|]. intros pv _.
  repeat keeps_step.
Qed.

Lemma keeps_to_jd_tt (jd_tt : jd_arg) : keeps X (to_jd_tt K jd_tt) (fun _ => True).
Proof.
  destruct jd_tt as [x|l]; simpl; [now apply keeps_ret|].
  eapply keeps_bind; [apply keeps_asTT|]. intros r _. apply keeps_asJD.
Qed.

Lemma keeps_check_observer (earthobs : observer_arg) :
  keeps X (check_observer earthobs) (fun _ => True).
Proof.
  destruct earthobs as [o|[|s [|s' strs]]|s]; simpl;
    first [now apply keeps_ret | apply keeps_raise].
Qed.

Lemma keeps_astropos (self : celestial) (jd_tt : jd_arg) (lowaccuracy : bool) :
  keeps X (astropos K P H2R D2R dir self jd_tt lowaccuracy) (fun _ => True).
Proof.
  destruct self as [o|o]; simpl; unfold Sidereal_astropos, Ephem_astropos;
    (eapply keeps_bind; [apply keeps_to_jd_tt|]; intros jd _;
     eapply keeps_bind; [apply keeps_open_ephem|]; intros _ _;
     repeat keeps_step).
Qed.

Lemma keeps_topopos (self : celestial) (jd_tt : jd_arg) (earthobs : observer_arg)
    (deltat : float) (lowaccuracy : bool) :
  keeps X (topopos K P H2R D2R dir self jd_tt earthobs deltat lowaccuracy) (fun _ => True).
Proof.
  destruct self as [o|o]; simpl; unfold Sidereal_topopos, Ephem_topopos;
    (eapply keeps_bind; [apply keeps_check_observer|]; intros obs _;
     eapply keeps_bind; [apply keeps_to_jd_tt|]; intros jd _;
     eapply keeps_bind; [apply keeps_open_ephem|]; intros _ _;
     repeat keeps_step).
Qed.

Lemma keeps_horizonpos (self : celestial) (time : jd_arg) (earthobs : observer_arg)
    (lowaccuracy : bool) (deltat xp yp : float) (refract : Z) :
  keeps X (horizonpos K P H2R D2R R2H R2D dir self time earthobs lowaccuracy
             deltat xp yp refract) (fun _ => True).
Proof.
  unfold horizonpos.
  eapply keeps_bind; [apply keeps_check_observer|]. intros obs _.
  eapply keeps_bind; [apply keeps_open_ephem|]. intros _ _.
  eapply keeps_bind; [apply keeps_topopos|]. intros radec _. cbv zeta.
  eapply keeps_bind.
  { destruct time as [x|l]; [apply keeps_raise | apply keeps_asTT]. }
  intros tt _.
  eapply keeps_bind; [apply keeps_asJD|]. intros jd _.
  repeat keeps_step.
Qed.

End KeepsPlaces.

(** From [keeps] to the instances of a given store. *)
Lemma keeps_store {A : Type} (c : M A) (Q : A -> Prop) (w : World) :
  keeps (dom (heap w)) c Q ->
  (forall l t, heap w !! l = Some t -> heap (fst (c w)) !! l = Some t)
  /\ (forall a, snd (c w) = Ok a -> Q a).
Proof.
  intros Hk. destruct (c w) as [w' r] eqn:Hrun.
  destruct (Hk w w' r (reflexivity _) Hrun) as (F & _ & HQ). simpl. split; [|exact HQ].
  intros l t Hl. rewrite F; [exact Hl|]. apply elem_of_dom. eauto.
Qed.

(** X1.  [asTT] never modifies an instance the store holds, whether it
    returns or raises, for every kernel and every timescale; what it returns
    is another instance. *)
Theorem asTT_never_mutates (K : Kernel) (self : loc) (d : bool) (w : World)
    (l : loc) (t : Time) :
  heap w !! l = Some t ->
  heap (fst (asTT K self d w)) !! l = Some t
  /\ (forall res, snd (asTT K self d w) = Ok res -> res <> l).
Proof.
  intros Hl.
  destruct (keeps_store _ _ w (keeps_asTT K (dom (heap w)) self d)) as [F N].
  split; [exact (F l t Hl)|]. intros res Hres ->.
  apply (N l Hres), elem_of_dom. eauto.
Qed.

Lemma asTT_never_mutates_witness :
  heap (fst (asTT sample_kernel 1 false (world_with (j2000 "UT1")))) !! 1%positive
  = Some (j2000 "UT1")
  /\ (forall res, snd (asTT sample_kernel 1 false (world_with (j2000 "UT1"))) = Ok res ->
        res <> 1%positive).
Proof.
  apply (asTT_never_mutates sample_kernel 1 false (world_with (j2000 "UT1")) 1
           (j2000 "UT1")).
  reflexivity.
Defined.

(** X2.  [asTDB] never modifies an instance the store holds, whether it
    returns or raises, and what it returns is another instance. *)
Theorem asTDB_never_mutates (K : Kernel) (self : loc) (ttok : bool) (w : World)
    (l : loc) (t : Time) :
  heap w !! l = Some t ->
  heap (fst (asTDB K self ttok w)) !! l = Some t
  /\ (forall res, snd (asTDB K self ttok w) = Ok res -> res <> l).
Proof.
  intros Hl.
  destruct (keeps_store _ _ w (keeps_asTDB K (dom (heap w)) self ttok)) as [F N].
  split; [exact (F l t Hl)|]. intros res Hres ->.
  apply (N l Hres), elem_of_dom. eauto.
Qed.

Lemma asTDB_never_mutates_witness :
  heap (fst (asTDB sample_kernel 1 true (world_with (j2000 "UTC")))) !! 1%positive
  = Some (j2000 "UTC")
  /\ (forall res, snd (asTDB sample_kernel 1 true (world_with (j2000 "UTC"))) = Ok res ->
        res <> 1%positive).
Proof.
  apply (asTDB_never_mutates sample_kernel 1 true (world_with (j2000 "UTC")) 1
           (j2000 "UTC")).
  reflexivity.
Defined.

(** X3.  [asBJD] never modifies an instance the store holds: the delay is
    added to a new instance, and the time it was called on keeps its [jd2]
    also when the call raises. *)
Theorem asBJD_never_mutates (K : Kernel) (H2R D2R : float) (cos sin : float -> float)
    (dir : string) (self : loc) (obj : SiderealObject) (ttok : bool) (w : World)
    (l : loc) (t : Time) :
  heap w !! l = Some t ->
  heap (fst (asBJD K H2R D2R cos sin dir self obj ttok w)) !! l = Some t
  /\ (forall res, snd (asBJD K H2R D2R cos sin dir self obj ttok w) = Ok res -> res <> l).
Proof.
  intros Hl.
  destruct (keeps_store _ _ w
              (keeps_asBJD K H2R D2R cos sin dir (dom (heap w)) self obj ttok)) as [F N].
  split; [exact (F l t Hl)|]. intros res Hres ->.
  apply (N l Hres), elem_of_dom. eauto.
Qed.

Lemma asBJD_never_mutates_witness :
  heap (fst (asBJD (kernel_with_ephem_status 0 2) 0.2617993877991494
               0.017453292519943295 cos_series sin_series "/usr/lib" 1 origin_star true
               (world_with (j2000 "TT")))) !! 1%positive
  = Some (j2000 "TT")
  /\ (forall res,
        snd (asBJD (kernel_with_ephem_status 0 2) 0.2617993877991494
               0.017453292519943295 cos_series sin_series "/usr/lib" 1 origin_star true
               (world_with (j2000 "TT"))) = Ok res -> res <> 1%positive).
Proof.
  apply (asBJD_never_mutates (kernel_with_ephem_status 0 2) 0.2617993877991494
           0.017453292519943295 cos_series sin_series "/usr/lib" 1 origin_star true
           (world_with (j2000 "TT")) 1 (j2000 "TT")).
  reflexivity.
Defined.

(** X4.  The place computations ([astropos], [topopos], [horizonpos]) never
    modify an instance the store holds, with a float or a [Time] as their
    time argument, whether they return or raise. *)
Theorem places_never_mutate (K : Kernel) (P : PlaceKernel) (H2R D2R R2H R2D : float)
    (dir : string) (self : celestial) (time : jd_arg) (earthobs : observer_arg)
    (lowaccuracy : bool) (deltat xp yp : float) (refract : Z) (w : World)
    (l : loc) (t : Time) :
  heap w !! l = Some t ->
  heap (fst (astropos K P H2R D2R dir self time lowaccuracy w)) !! l = Some t
  /\ heap (fst (topopos K P H2R D2R dir self time earthobs deltat lowaccuracy w)) !! l
     = Some t
  /\ heap (fst (horizonpos K P H2R D2R R2H R2D dir self time earthobs lowaccuracy
                  deltat xp yp refract w)) !! l = Some t.
Proof.
  intros Hl. repeat split.
  - exact (proj1 (keeps_store _ _ w
                    (keeps_astropos K P H2R D2R dir (dom (heap w)) self time lowaccuracy))
             l t Hl).
  - exact (proj1 (keeps_store _ _ w
                    (keeps_topopos K P H2R D2R dir (dom (heap w)) self time earthobs
                       deltat lowaccuracy)) l t Hl).
  - exact (proj1 (keeps_store _ _ w
                    (keeps_horizonpos K P H2R D2R R2H R2D dir (dom (heap w)) self time
                       earthobs lowaccuracy deltat xp yp refract)) l t Hl).
Qed.

Lemma places_never_mutate_witness :
  heap (fst (astropos sample_kernel sample_places 0.2617993877991494
               0.017453292519943295 "/usr/lib" (Sidereal origin_star) (JDtime 1) false
               (world_with (j2000 "UTC")))) !! 1%positive = Some (j2000 "UTC")
  /\ heap (fst (topopos sample_kernel sample_places 0.2617993877991494
                  0.017453292519943295 "/usr/lib" (Sidereal origin_star) (JDtime 1)
                  (AnEarthObserver geocenter) 0 false
                  (world_with (j2000 "UTC")))) !! 1%positive = Some (j2000 "UTC")
  /\ heap (fst (horizonpos sample_kernel sample_places 0.2617993877991494
                  0.017453292519943295 3.819718634205488 57.29577951308232 "/usr/lib"
                  (Sidereal origin_star) (JDtime 1) (AnEarthObserver geocenter) false
                  0 0 0 0 (world_with (j2000 "UTC")))) !! 1%positive = Some (j2000 "UTC").
Proof.
  apply (places_never_mutate sample_kernel sample_places 0.2617993877991494
           0.017453292519943295 3.819718634205488 57.29577951308232 "/usr/lib"
           (Sidereal origin_star) (JDtime 1) (AnEarthObserver geocenter) false
           0 0 0 0 (world_with (j2000 "UTC")) 1 (j2000 "UTC")).
  reflexivity.
Defined.

(** * The [dubiousok] flag *)

Section FlagFacts.
Context {A B : Type}.

Lemma bind_ext (c : M A) (k1 k2 : A -> M B) (w : World) :
  (forall a w', k1 a w' = k2 a w') -> bind c k1 w = bind c k2 w.
Proof. intros H. unfold bind. destruct (c w) as [w' [a|e]]; auto. Qed.

End FlagFacts.

(** The two tests of [_checksofacode] together raise every status other
    than zero, so the flag does not enter the outcome. *)
Lemma checksofacode_flag (func : string) (code : Z) (d : bool) :
  _checksofacode func code d = _checksofacode func code false.
Proof.
  unfold _checksofacode. destruct (code =? 1) eqn:E1; [|now destruct d].
  apply Z.eqb_eq in E1. subst code. now destruct d.
Qed.

Ltac flag_step d :=
  first
    [ reflexivity
    | rewrite (checksofacode_flag _ _ d)
    | apply bind_ext; intros ? ?
    | match goal with
      | |- (if ?b then _ else _) _ = _ => destruct b
      | |- (let '(_, _) := ?p in _) _ = _ => destruct p
      | |- (match ?p with _ => _ end) _ = _ => destruct p
      end ].

(** X5.  [dubiousok] has no effect: with the flag set or not, [fromcalendar],
    [fromfdcal], [asTT] and [fmtcalendar] end in the same store with the same
    outcome. *)
Theorem dubiousok_has_no_effect (K : Kernel) (self : loc) (w : World)
    (year month day hour minute precision : Z) (second fday : float) (ts : string) :
  fromcalendar K self year month day hour minute second ts true w
  = fromcalendar K self year month day hour minute second ts false w
  /\ fromfdcal K self year month day fday ts true w
     = fromfdcal K self year month day fday ts false w
  /\ asTT K self true w = asTT K self false w
  /\ fmtcalendar K self precision true w = fmtcalendar K self precision false w.
Proof.
  repeat split.
  - unfold fromcalendar. repeat flag_step true.
  - unfold fromfdcal. repeat flag_step true.
  - unfold asTT. repeat flag_step true.
  - unfold fmtcalendar. repeat flag_step true.
Qed.

(** * Constructors *)

(** X6.  A timescale name outside the seven raises [ValueError] before
    anything else happens: [fromJD], [fromMJD], [fromcalendar] and
    [fromfdcal] leave the store and the record of kernel routines exactly
    as they were. *)
Theorem constructors_reject_bad_timescale (K : Kernel) (self : loc) (w : World)
    (ts : string) (x fday second : float) (year month day hour minute : Z) (d : bool) :
  ts ∉ _oktimescales ->
  let e := ValueError ("illegal timescale name " ++ dq ++ ts ++ dq) in
  fromJD self x ts w = (w, Raise e)
  /\ fromMJD self x ts w = (w, Raise e)
  /\ fromcalendar K self year month day hour minute second ts d w = (w, Raise e)
  /\ fromfdcal K self year month day fday ts d w = (w, Raise e).
Proof.
  intros Hts e. unfold fromJD, fromMJD, fromcalendar, fromfdcal.
  repeat split; erewrite bind_raise by (now apply checktimescale_bad); reflexivity.
Qed.

Lemma constructors_reject_bad_timescale_witness :
  fromJD 1 2451545 "utc" (world_with (j2000 "TT"))
  = (world_with (j2000 "TT"),
     Raise (ValueError ("illegal timescale name " ++ dq ++ "utc" ++ dq)))
  /\ fromcalendar sample_kernel 1 2000 1 1 12 0 0 "utc" false (world_with (j2000 "TT"))
     = (world_with (j2000 "TT"),
        Raise (ValueError ("illegal timescale name " ++ dq ++ "utc" ++ dq))).
Proof.
  assert (H : "utc"%string ∉ _oktimescales)
    by (apply (bool_decide_unpack _); vm_compute; exact I).
  pose proof (constructors_reject_bad_timescale sample_kernel 1 (world_with (j2000 "TT"))
                "utc" 2451545 0 0 2000 1 1 12 0 false H) as (H1 & _ & H3 & _).
  split; [exact H1 | exact H3].
Defined.

Lemma fromPOSIX_run (self : loc) (time : float) (w : World) (t0 : Time) :
  heap w !! self = Some t0 ->
  fromPOSIX self time w
  = (mkWorld (<[self := mkTime (Some 2440587.5%float) (Some (time / 86400)%float)
                          (Some "UTC"%string)]> (heap w)) (klog w),
     Ok self).
Proof. intros Hs. unfold fromPOSIX. now rewrite (set_all_run _ _ _ _ _ _ _ Hs). Qed.

(** X7.  The POSIX epoch is MJD 40587: for every clock reading [t],
    [now ()] returns a new instance tagged UTC whose [asMJD ()] is
    [40587.0 + t / 86400.], with no validation and no kernel routine. *)
Theorem now_is_UTC_at_MJD_40587 (clock : float) (w : World) :
  exists res w',
    now clock w = (w', Ok res)
    /\ heap w !! res = None
    /\ heap w' !! res = Some (mkTime (Some 2440587.5%float) (Some (clock / 86400)%float)
                                (Some "UTC"%string))
    /\ klog w' = klog w
    /\ asMJD res w' = (w', Ok (40587 + clock / 86400)%float).
Proof.
  eexists _, _. split.
  { unfold now, fromnow, Time_new. unfold bind at 1.
    erewrite bind_ok by (eapply fromPOSIX_run; simpl; apply lookup_insert_eq).
    reflexivity. }
  simpl. rewrite insert_insert_eq.
  repeat split.
  - apply Time_new_fresh.
  - apply lookup_insert_eq.
  - erewrite asMJD_run by (simpl; apply lookup_insert_eq). reflexivity.
Qed.

(** X8.  [fromfdcal] is [fromcalendar] at zero hour, minute and second with
    the day fraction added to [jd2] afterwards: it fails exactly when that
    call fails, with the same store and error, and no check of the
    fraction is made. *)
Theorem fromfdcal_is_midnight_plus_fraction (K : Kernel) (self : loc)
    (year month day : Z) (fday : float) (ts : string) (d : bool) (w : World) (t0 : Time) :
  heap w !! self = Some t0 ->
  match fromcalendar K self year month day 0 0 0 ts d w with
  | (w1, Ok _) =>
      exists a b,
        heap w1 !! self = Some (mkTime (Some a) (Some b) (Some ts))
        /\ fromfdcal K self year month day fday ts d w
           = (mkWorld (<[self := mkTime (Some a) (Some (b + fday)%float) (Some ts)]>
                         (heap w1)) (klog w1),
              Ok self)
  | (w1, Raise e) => fromfdcal K self year month day fday ts d w = (w1, Raise e)
  end.
Proof.
  intros Hs. destruct (decide (ts ∈ _oktimescales)) as [Hts|Hts].
  - rewrite (fromcalendar_checked_run K _ _ _ _ _ _ _ _ _ _ t0 Hs Hts).
    unfold fromfdcal.
    erewrite bind_ok by (now apply checktimescale_ok).
    rewrite encode_ascii_ok by (now apply oktimescales_ascii).
    destruct (iauDtf2d K ts year month day 0 0 0) as [[code d1] d2].
    rewrite record_call_run.
    erewrite set_jds_run by (simpl; exact Hs).
    destruct (code =? 0) eqn:Hc.
    + apply Z.eqb_eq in Hc. subst code.
      erewrite bind_ok by apply checksofacode_zero.
      erewrite bind_ok by (apply getobj_run; simpl; apply lookup_insert_eq).
      simpl as_float. unfold bind at 1, ret at 1.
      unfold set_jd2, set_timescale.
      erewrite bind_ok by (apply setobj_run; simpl; apply lookup_insert_eq).
      erewrite bind_ok by (apply setobj_run; simpl; apply lookup_insert_eq).
      exists d1, d2. simpl. rewrite lookup_insert_eq, !insert_insert_eq. auto.
    + apply Z.eqb_neq in Hc.
      erewrite bind_raise by (now apply checksofacode_nonzero). reflexivity.
  - unfold fromcalendar, fromfdcal.
    erewrite !bind_raise by (now apply checktimescale_bad). reflexivity.
Qed.

Lemma fromfdcal_is_midnight_plus_fraction_witness :
  exists a b,
    heap (fst (fromcalendar sample_kernel 1 2000 1 1 0 0 0 "TT" false
                 (world_with (j2000 "UTC")))) !! 1%positive
    = Some (mkTime (Some a) (Some b) (Some "TT"%string))
    /\ heap (fst (fromfdcal sample_kernel 1 2000 1 1 0.5 "TT" false
                    (world_with (j2000 "UTC")))) !! 1%positive
       = Some (mkTime (Some a) (Some (b + 0.5)%float) (Some "TT"%string)).
Proof.
  pose proof (fromfdcal_is_midnight_plus_fraction sample_kernel 1 2000 1 1 0.5 "TT"
                false (world_with (j2000 "UTC")) (j2000 "UTC") eq_refl) as H.
  destruct (fromcalendar sample_kernel 1 2000 1 1 0 0 0 "TT" false
              (world_with (j2000 "UTC"))) as [w1 [l|e]] eqn:E.
  - destruct H as (a & b & Ha & Hb). exists a, b. split; [exact Ha|].
    rewrite Hb. simpl. apply lookup_insert_eq.
  - vm_compute in E. discriminate E.
Defined.

(** * More on conversions *)

(** X9.  Converting to TDB twice: a time [asTDB] returned converts again,
    with the same [ttok], to a further new instance with the same
    components and tag, and no kernel routine is called the second time. *)
Theorem asTDB_twice (K : Kernel) (self : loc) (ttok : bool) (w w1 : World)
    (t : Time) (r1 : loc) :
  heap w !! self = Some t ->
  asTDB K self ttok w = (w1, Ok r1) ->
  exists r2 w2 v,
    asTDB K r1 ttok w1 = (w2, Ok r2)
    /\ r2 <> r1
    /\ heap w1 !! r1 = Some v
    /\ heap w2 !! r2 = Some v
    /\ heap w2 !! r1 = Some v
    /\ klog w2 = klog w1.
Proof.
  intros Hs Hrun.
  destruct (asTDB_ok_tag K self ttok w w1 t r1 Hs Hrun) as (_ & _ & v & Hv & Htag).
  pose proof (fresh_ne w1 r1 v Hv) as Hne.
  eexists (fresh (dom (heap w1))), _, v.
  split; [exact (asTDB_again K r1 ttok w1 v Hv Htag)|]. simpl.
  rewrite lookup_insert_eq, lookup_insert_ne by exact Hne.
  destruct v as [a b tag]. auto.
Qed.

Lemma asTDB_twice_witness :
  exists r2 w2 v,
    asTDB sample_kernel 2 true (fst (asTDB sample_kernel 1 true (world_with (j2000 "TAI"))))
    = (w2, Ok r2)
    /\ r2 <> 2%positive
    /\ heap (fst (asTDB sample_kernel 1 true (world_with (j2000 "TAI")))) !! 2%positive
       = Some v
    /\ heap w2 !! r2 = Some v
    /\ heap w2 !! 2%positive = Some v
    /\ klog w2 = klog (fst (asTDB sample_kernel 1 true (world_with (j2000 "TAI")))).
Proof.
  apply (asTDB_twice sample_kernel 1 true (world_with (j2000 "TAI")) _ (j2000 "TAI") 2).
  - reflexivity.
  - vm_compute. reflexivity.
Defined.

(** X10.  UTC to TT is the kernel's UTC-to-TAI followed by its TAI-to-TT:
    with both statuses zero, [asTT] calls [iauUtctai] on the components of
    the input, [iauTaitt] on what that returned, and returns a new instance
    tagged TT holding the second result. *)
Theorem asTT_UTC_chain (K : Kernel) (self : loc) (d : bool) (w : World)
    (a b r1 r2 q1 q2 : float) :
  heap w !! self = Some (mkTime (Some a) (Some b) (Some "UTC"%string)) ->
  iauUtctai K a b = (0, r1, r2) ->
  iauTaitt K r1 r2 = (0, q1, q2) ->
  asTT K self d w
  = (mkWorld (<[fresh (dom (heap w)) := mkTime (Some q1) (Some q2) (Some "TT"%string)]>
                (heap w))
             (KiauTaitt r1 r2 :: KiauUtctai a b :: klog w),
     Ok (fresh (dom (heap w)))).
Proof.
  intros Hs H1 H2. pose proof (fresh_ne w self _ Hs) as Hne.
  unfold asTT. rewrite new_tagged_run.
  erewrite bind_ok
    by (apply getobj_run; simpl; rewrite lookup_insert_ne by exact Hne; exact Hs).
  cbn [timescale jd1 jd2 str_is String.eqb Ascii.eqb Bool.eqb as_float].
  unfold bind at 1, ret at 1. unfold bind at 1, ret at 1.
  rewrite H1, record_call_run.
  erewrite set_jds_run by (simpl; apply lookup_insert_eq).
  erewrite bind_ok by apply checksofacode_zero.
  rewrite H2, record_call_run.
  erewrite set_jds_run by (simpl; apply lookup_insert_eq).
  simpl. now rewrite !insert_insert_eq.
Qed.

Lemma asTT_UTC_chain_witness :
  asTT sample_kernel 1 false (world_with (j2000 "UTC"))
  = (mkWorld (<[fresh (dom (heap (world_with (j2000 "UTC")))) :=
                  mkTime (Some 2451545%float)
                    (Some (0 + 37 / 86400 + 32.184 / 86400)%float)
                    (Some "TT"%string)]> (heap (world_with (j2000 "UTC"))))
             (KiauTaitt 2451545 (0 + 37 / 86400) :: KiauUtctai 2451545 0
              :: klog (world_with (j2000 "UTC"))),
     Ok (fresh (dom (heap (world_with (j2000 "UTC")))))).
Proof.
  apply (asTT_UTC_chain sample_kernel 1 false (world_with (j2000 "UTC"))
           2451545 0 2451545 (0 + 37 / 86400) 2451545 (0 + 37 / 86400 + 32.184 / 86400));
    reflexivity.
Defined.

(** X11.  When the first step of UTC to TT fails, [iauTaitt] is never
    called: the record of kernel routines gains [iauUtctai] alone, the
    error names [utctai] and carries its status, and the input is as it
    was. *)
Theorem asTT_UTC_failure (K : Kernel) (self : loc) (d : bool) (w : World)
    (a b r1 r2 : float) (c : Z) :
  heap w !! self = Some (mkTime (Some a) (Some b) (Some "UTC"%string)) ->
  iauUtctai K a b = (c, r1, r2) ->
  c <> 0 ->
  snd (asTT K self d w) = Raise (SofaError "utctai" c)
  /\ klog (fst (asTT K self d w)) = KiauUtctai a b :: klog w
  /\ heap (fst (asTT K self d w)) !! self
     = Some (mkTime (Some a) (Some b) (Some "UTC"%string)).
Proof.
  intros Hs H1 Hc. pose proof (fresh_ne w self _ Hs) as Hne.
  assert (Hrun : asTT K self d w
    = (mkWorld (<[fresh (dom (heap w)) := mkTime (Some r1) (Some r2) (Some "TT"%string)]>
                  (heap w)) (KiauUtctai a b :: klog w),
       Raise (SofaError "utctai" c))).
  { unfold asTT. rewrite new_tagged_run.
    erewrite bind_ok
      by (apply getobj_run; simpl; rewrite lookup_insert_ne by exact Hne; exact Hs).
    cbn [timescale jd1 jd2 str_is String.eqb Ascii.eqb Bool.eqb as_float].
    unfold bind at 1, ret at 1. unfold bind at 1, ret at 1.
    rewrite H1, record_call_run.
    erewrite set_jds_run by (simpl; apply lookup_insert_eq).
    erewrite bind_raise by (now apply checksofacode_nonzero). simpl.
    now rewrite !insert_insert_eq. }
  rewrite Hrun. simpl. repeat split. now rewrite lookup_insert_ne by exact Hne.
Qed.

Lemma asTT_UTC_failure_witness :
  snd (asTT sample_kernel 1 true
         (world_with (mkTime (Some 2415020.5%float) (Some 0.5%float) (Some "UTC"%string))))
  = Raise (SofaError "utctai" 1)
  /\ klog (fst (asTT sample_kernel 1 true
                  (world_with (mkTime (Some 2415020.5%float) (Some 0.5%float)
                                 (Some "UTC"%string)))))
     = KiauUtctai 2415020.5 0.5
       :: klog (world_with (mkTime (Some 2415020.5%float) (Some 0.5%float)
                              (Some "UTC"%string)))
  /\ heap (fst (asTT sample_kernel 1 true
                  (world_with (mkTime (Some 2415020.5%float) (Some 0.5%float)
                                 (Some "UTC"%string))))) !! 1%positive
     = Some (mkTime (Some 2415020.5%float) (Some 0.5%float) (Some "UTC"%string)).
Proof.
  apply (asTT_UTC_failure sample_kernel 1 true
           (world_with (mkTime (Some 2415020.5%float) (Some 0.5%float)
                          (Some "UTC"%string)))
           2415020.5 0.5 2415020.5 (0.5 + 37 / 86400) 1 eq_refl eq_refl).
  discriminate.
Defined.

(** * Reading a time *)

Section Readers.
Variable K : Kernel.
Variable P : PlaceKernel.

Lemma asJD_reads (self : loc) (w : World) : fst (asJD self w) = w.
Proof.
  unfold asJD, bind, getobj, as_float, ret, raise.
  destruct (heap w !! self) as [[[a|] [b|] s]|]; reflexivity.
Qed.

Lemma asMJD_reads (self : loc) (w : World) : fst (asMJD self w) = w.
Proof.
  unfold asMJD, bind, getobj, as_float, ret, raise.
  destruct (heap w !! self) as [[[a|] [b|] s]|]; reflexivity.
Qed.

Lemma ascalendar_reads (self : loc) (w : World) : fst (ascalendar P self w) = w.
Proof.
  unfold ascalendar, bind, getobj, as_float, ret, raise.
  destruct (heap w !! self) as [[[a|] [b|] s]|]; try reflexivity.
  cbn [jd1 jd2]. destruct (iauJd2cal P a b) as [res ymdf].
  unfold _checksofacode, raise, ret.
  destruct ((res =? 1) && negb false); [reflexivity|].
  destruct (negb (res =? 0)); reflexivity.
Qed.

Lemma fmtcalendar_reads (self : loc) (precision : Z) (d : bool) (w : World) :
  heap (fst (fmtcalendar K self precision d w)) = heap w.
Proof.
  unfold fmtcalendar, bind, getobj, as_float, encode_ascii, ret, raise.
  destruct (heap w !! self) as [[[a|] [b|] [s|]]|]; try reflexivity;
    cbn [jd1 jd2 timescale]; destruct (is_ascii s); try reflexivity.
  destruct (iauD2dtf_tweak K s precision a b) as [code [[[[[[yr mo] dy] hr] mi] sc] fr]].
  unfold record_call, _checksofacode, raise, ret.
  destruct ((code =? 1) && negb d); [reflexivity|].
  destruct (negb (code =? 0)); reflexivity.
Qed.

End Readers.

(** X12.  The reading methods never write: [asJD], [asMJD] and [ascalendar]
    leave the whole world as it was, and [fmtcalendar] leaves every
    instance as it was, whatever they return or raise. *)
Theorem readers_never_write (K : Kernel) (P : PlaceKernel) (self : loc)
    (precision : Z) (d : bool) (w : World) :
  fst (asJD self w) = w
  /\ fst (asMJD self w) = w
  /\ fst (ascalendar P self w) = w
  /\ heap (fst (fmtcalendar K self precision d w)) = heap w.
Proof.
  repeat split;
    [apply asJD_reads | apply asMJD_reads | apply ascalendar_reads | apply fmtcalendar_reads].
Qed.

(** X13.  A [Time ()] that no [from...] method has filled cannot be read or
    converted: [asJD], [asMJD] and [ascalendar] raise [TypeError],
    [fmtcalendar] raises [AttributeError], and [asTT] and [asTDB] raise
    [UnsupportedTimescaleError] holding [None]. *)
Theorem unfilled_Time_raises (K : Kernel) (P : PlaceKernel) (precision : Z)
    (d ttok : bool) (w : World) :
  snd ((do t <- Time_new; asJD t) w) = Raise TypeError
  /\ snd ((do t <- Time_new; asMJD t) w) = Raise TypeError
  /\ snd ((do t <- Time_new; ascalendar P t) w) = Raise TypeError
  /\ snd ((do t <- Time_new; fmtcalendar K t precision d) w) = Raise AttributeError
  /\ snd ((do t <- Time_new; asTT K t d) w) = Raise (UnsupportedTimescaleError None)
  /\ snd ((do t <- Time_new; asTDB K t ttok) w) = Raise (UnsupportedTimescaleError None).
Proof.
  assert (Hnew : forall {R} (k : loc -> M R),
             (do t <- Time_new; k t) w
             = k (fresh (dom (heap w)))
                 (mkWorld (<[fresh (dom (heap w)) := mkTime None None None]> (heap w))
                    (klog w))) by reflexivity.
  rewrite !Hnew.
  set (l := fresh (dom (heap w))).
  set (w1 := mkWorld (<[l := mkTime None None None]> (heap w)) (klog w)).
  assert (Hl : heap w1 !! l = Some (mkTime None None None)) by apply lookup_insert_eq.
  repeat split.
  - unfold asJD. erewrite bind_ok by (apply getobj_run, Hl). reflexivity.
  - unfold asMJD. erewrite bind_ok by (apply getobj_run, Hl). reflexivity.
  - unfold ascalendar. erewrite bind_ok by (apply getobj_run, Hl). reflexivity.
  - unfold fmtcalendar. erewrite bind_ok by (apply getobj_run, Hl). reflexivity.
  - rewrite (asTT_unsupported_run K l d w1 _ Hl); [reflexivity|discriminate..].
  - rewrite (asTDB_other_run K l ttok w1 _ Hl) by discriminate.
    destruct ttok; [|reflexivity].
    rewrite (asTT_unsupported_run K l false w1 _ Hl); [reflexivity|discriminate..].
Qed.

(** * Ephemeris objects and places *)

(** X14.  A failed ephemeris read does not surface as a [NovasError]: the
    constructor is given the routine's name without a status, so what
    [ephem] raises is [TypeError]. *)
Theorem ephem_read_failure_is_TypeError (K : Kernel) (dir : string)
    (self : EphemObject) (tdb : loc) (ttok : bool) (w : World)
    (a b : float) (tag : option string) (code : Z) (pos vel : float * float * float) :
  heap w !! tdb = Some (mkTime (Some a) (Some b) tag) ->
  tag = Some "TDB"%string \/ (ttok = true /\ tag = Some "TT"%string) ->
  ephem_open K (dir ++ "/" ++ "_precastro-DEc421.dat") = 0 ->
  ephemeris_tweak K a b (eo_handle self) 0 0 = (code, pos, vel) ->
  code <> 0 ->
  snd (ephem K dir self tdb ttok w) = Raise TypeError.
Proof.
  intros Hr Htag Hopen Heph Hc. unfold ephem.
  erewrite bind_ok by (eapply asTDB_again; [exact Hr | exact Htag]).
  erewrite bind_ok by (now apply open_ephem_run).
  erewrite bind_ok by (apply getobj_run; simpl; apply lookup_insert_eq).
  simpl as_float. unfold bind at 1, ret at 1. unfold bind at 1, ret at 1.
  rewrite Heph, record_call_run.
  apply Z.eqb_neq in Hc. now rewrite Hc.
Qed.

Lemma ephem_read_failure_is_TypeError_witness :
  snd (ephem (kernel_with_ephem_status 0 2) "/usr/lib"
         (mkEphem (mkObject 0 3 (mkCat 0 0))) 1 true (world_with (j2000 "TT")))
  = Raise TypeError.
Proof.
  apply (ephem_read_failure_is_TypeError (kernel_with_ephem_status 0 2) "/usr/lib"
           (mkEphem (mkObject 0 3 (mkCat 0 0))) 1 true (world_with (j2000 "TT"))
           2451545 0 (Some "TT"%string) 2 (0, 0, 0)%float (0, 0, 0)%float).
  - reflexivity.
  - right. split; reflexivity.
  - reflexivity.
  - reflexivity.
  - discriminate.
Defined.

Lemma ephemnums_items (name : string) (num : Z) :
  _ephemnums !! name = Some num
  <-> (name, num) ∈ [("mercury", 1); ("venus", 2); ("earth", 3); ("mars", 4);
                     ("jupiter", 5); ("saturn", 6); ("uranus", 7); ("neptune", 8);
                     ("pluto", 9); ("sun", 10); ("moon", 11)]%string.
Proof.
  unfold _ephemnums. rewrite <- elem_of_list_to_map; [reflexivity|].
  vm_compute.
  repeat (constructor; [rewrite ?elem_of_cons, elem_of_nil; intuition discriminate|]).
  constructor.
Qed.

(** The codes are distinct: a code belongs to one name only. *)
Lemma ephemnums_injective (n1 n2 : string) (num : Z) :
  _ephemnums !! n1 = Some num -> _ephemnums !! n2 = Some num -> n1 = n2.
Proof.
  rewrite !ephemnums_items, !elem_of_cons, !elem_of_nil.
  intros H1 H2.
  repeat (destruct H1 as [H1|H1];
          [injection H1 as -> ->;
           repeat (destruct H2 as [H2|H2]; [congruence|]); contradiction |]).
  contradiction.
Qed.

Lemma ephemnums_codes_range (name : string) (num : Z) :
  _ephemnums !! name = Some num -> 1 <= num <= 11.
Proof.
  rewrite ephemnums_items, !elem_of_cons, !elem_of_nil. intros H.
  repeat (destruct H as [H|H]; [injection H as -> ->; lia|]). contradiction.
Qed.

(** X15.  [describe] finds the name back from the code in the handle,
    whatever order the dictionary yields its items in: for an object whose
    handle holds the code of [name] it says that name, and for a code no
    body has it says [unknown?]. *)
Theorem describe_names_the_body (items : list (string * Z)) (self : EphemObject) :
  items ≡ₚ map_to_list _ephemnums ->
  (forall name, _ephemnums !! name = Some (number (eo_handle self)) ->
     describe_in items self = ("Ephemeris object " ++ dq ++ name ++ dq)%string)
  /\ ((forall name, _ephemnums !! name <> Some (number (eo_handle self))) ->
      describe_in items self = ("Ephemeris object " ++ dq ++ "unknown?" ++ dq)%string).
Proof.
  intros Hperm.
  assert (Hin : forall k v, In (k, v) items <-> _ephemnums !! k = Some v).
  { intros k v. rewrite <- list_elem_of_In, Hperm. apply elem_of_map_to_list. }
  unfold describe_in. split.
  - intros name Hname.
    destruct (List.find _ items) as [[k v]|] eqn:Hf.
    + apply List.find_some in Hf as [Hk Hv]. simpl in Hv. apply Z.eqb_eq in Hv. subst v.
      apply Hin in Hk. simpl. now rewrite (ephemnums_injective k name _ Hk Hname).
    + pose proof (List.find_none _ _ Hf (name, number (eo_handle self))
                    (proj2 (Hin _ _) Hname)) as Hn.
      simpl in Hn. now rewrite Z.eqb_refl in Hn.
  - intros Hnone.
    destruct (List.find _ items) as [[k v]|] eqn:Hf; [|reflexivity].
    apply List.find_some in Hf as [Hk Hv]. simpl in Hv. apply Z.eqb_eq in Hv. subst v.
    apply Hin in Hk. now destruct (Hnone k).
Qed.

Lemma describe_names_the_body_witness :
  EphemObject_describe (mkEphem (mkObject 0 3 (mkCat 0 0)))
  = ("Ephemeris object " ++ dq ++ "earth" ++ dq)%string
  /\ EphemObject_describe (mkEphem new_novas_object)
     = ("Ephemeris object " ++ dq ++ "unknown?" ++ dq)%string.
Proof.
  split.
  - apply (proj1 (describe_names_the_body (map_to_list _ephemnums)
                    (mkEphem (mkObject 0 3 (mkCat 0 0))) (reflexivity _)) "earth").
    vm_compute. reflexivity.
  - apply (proj2 (describe_names_the_body (map_to_list _ephemnums)
                    (mkEphem new_novas_object) (reflexivity _))).
    intros name H. apply ephemnums_codes_range in H. simpl in H. lia.
Defined.

Section PlaceFacts.
Variable K : Kernel.
Variable P : PlaceKernel.
Variables H2R D2R R2H R2D : float.
Variable dir : string.

Lemma check_observer_not_earth (earthobs : observer_arg) (w : World) :
  (forall o, earthobs <> AnEarthObserver o) ->
  exists e, check_observer earthobs w = (w, Raise e)
            /\ forall s, earthobs = OtherObject s ->
                 e = ValueError ("must provide an observer position on Earth; got "
                                 ++ dq ++ s ++ dq).
Proof.
  intros Hne. destruct earthobs as [o|[|s [|s' strs]]|s]; simpl.
  - now destruct (Hne o).
  - eexists. split; [reflexivity | discriminate].
  - eexists. split; [reflexivity | discriminate].
  - eexists. split; [reflexivity | discriminate].
  - eexists. split; [reflexivity|]. now intros s' [= ->].
Qed.

Lemma check_observer_world (earthobs : observer_arg) (w wc : World)
    (r : outcome EarthObserver) :
  check_observer earthobs w = (wc, r) -> wc = w.
Proof.
  destruct earthobs as [o|[|s [|s' strs]]|s]; unfold check_observer, ret, raise;
    now intros [= <- _].
Qed.

(** The outcome of the steps after the time conversion does not depend on
    the instances in the store. *)
Lemma open_ephem_then (w : World) {R} (k : M R) :
  (step _open_ephem K dir; k) w
  = let p := (dir ++ "/" ++ "_precastro-DEc421.dat")%string in
    let w1 := mkWorld (heap w) (Kephem_open p :: klog w) in
    if ephem_open K p =? 0 then k w1
    else (w1, Raise (NovasError "ephem_open" (ephem_open K p))).
Proof.
  unfold _open_ephem. cbv zeta. unfold bind at 1. rewrite record_call_run.
  now destruct (ephem_open K (dir ++ "/" ++ "_precastro-DEc421.dat") =? 0).
Qed.

End PlaceFacts.

(** X16.  Without an [EarthObserver], [topopos] and [horizonpos] raise before
    anything else happens: the world is as it was (no time is converted, no
    ephemeris opened), and for an argument that is not a tuple the error is
    [ValueError] quoting the argument. *)
Theorem places_need_EarthObserver (K : Kernel) (P : PlaceKernel)
    (H2R D2R R2H R2D : float) (dir : string) (self : celestial) (time : jd_arg)
    (earthobs : observer_arg) (lowaccuracy : bool) (deltat xp yp : float)
    (refract : Z) (w : World) :
  (forall o, earthobs <> AnEarthObserver o) ->
  exists e,
    topopos K P H2R D2R dir self time earthobs deltat lowaccuracy w = (w, Raise e)
    /\ horizonpos K P H2R D2R R2H R2D dir self time earthobs lowaccuracy
         deltat xp yp refract w = (w, Raise e)
    /\ forall s, earthobs = OtherObject s ->
         e = ValueError ("must provide an observer position on Earth; got "
                         ++ dq ++ s ++ dq).
Proof.
  intros Hne. destruct (check_observer_not_earth earthobs w Hne) as (e & He & Hs).
  exists e. repeat split; [| |exact Hs].
  - destruct self; simpl; unfold Sidereal_topopos, Ephem_topopos;
      now erewrite bind_raise by exact He.
  - unfold horizonpos. now erewrite bind_raise by exact He.
Qed.

Lemma places_need_EarthObserver_witness :
  exists e,
    topopos sample_kernel sample_places 0.2617993877991494 0.017453292519943295
      "/usr/lib" (Sidereal origin_star) (JDfloat 2451545) (OtherObject "None") 0 false
      (world_with (j2000 "TT")) = (world_with (j2000 "TT"), Raise e)
    /\ horizonpos sample_kernel sample_places 0.2617993877991494 0.017453292519943295
         3.819718634205488 57.29577951308232 "/usr/lib" (Sidereal origin_star)
         (JDfloat 2451545) (OtherObject "None") false 0 0 0 0
         (world_with (j2000 "TT")) = (world_with (j2000 "TT"), Raise e)
    /\ forall s, OtherObject "None" = OtherObject s ->
         e = ValueError ("must provide an observer position on Earth; got "
                         ++ dq ++ s ++ dq).
Proof.
  apply (places_need_EarthObserver sample_kernel sample_places 0.2617993877991494
           0.017453292519943295 3.819718634205488 57.29577951308232 "/usr/lib"
           (Sidereal origin_star) (JDfloat 2451545) (OtherObject "None") false 0 0 0 0
           (world_with (j2000 "TT"))).
  intros o. discriminate.
Defined.

(** X17.  A [Time] in TT passed to [astropos] or [topopos] counts as the one
    float [jd1 + jd2]: the call returns or raises exactly what it does for
    that float. *)
Theorem places_take_TT_time_as_sum (K : Kernel) (P : PlaceKernel) (H2R D2R : float)
    (dir : string) (self : celestial) (l : loc) (a b : float)
    (earthobs : observer_arg) (deltat : float) (lowaccuracy : bool) (w : World) :
  heap w !! l = Some (mkTime (Some a) (Some b) (Some "TT"%string)) ->
  snd (astropos K P H2R D2R dir self (JDtime l) lowaccuracy w)
  = snd (astropos K P H2R D2R dir self (JDfloat (a + b)) lowaccuracy w)
  /\ snd (topopos K P H2R D2R dir self (JDtime l) earthobs deltat lowaccuracy w)
     = snd (topopos K P H2R D2R dir self (JDfloat (a + b)) earthobs deltat lowaccuracy w).
Proof.
  intros Hl.
  assert (Hjd : forall {R} (k : float -> M R),
             (do jd <- to_jd_tt K (JDtime l); k jd) w
             = k (a + b)%float
                 (mkWorld (<[fresh (dom (heap w)) :=
                               mkTime (Some a) (Some b) (Some "TT"%string)]> (heap w))
                    (klog w))).
  { intros R k. unfold to_jd_tt.
    erewrite bind_ok; [reflexivity|].
    erewrite bind_ok by (apply (asTT_TT_run K l false w _ Hl); reflexivity).
    apply (asJD_run _ _ a b (Some "TT"%string)). simpl. apply lookup_insert_eq. }
  assert (Hf : forall {R} (k : float -> M R) x w0,
             (do jd <- to_jd_tt K (JDfloat x); k jd) w0 = k x w0) by reflexivity.
  split.
  - destruct self as [o|o]; simpl; unfold Sidereal_astropos, Ephem_astropos;
      rewrite Hjd, Hf, !open_ephem_then; cbv zeta; simpl heap; simpl klog;
      destruct (ephem_open K _ =? 0); try reflexivity.
    + destruct (astro_star P _ _ _) as [[c ra] dec]. now destruct (negb (c =? 0)).
    + destruct (astro_planet P _ _ _) as [c [[ra dec] dist]]. now destruct (negb (c =? 0)).
  - destruct self as [o|o]; simpl; unfold Sidereal_topopos, Ephem_topopos;
      (destruct (check_observer earthobs w) as [wc [obs|e]] eqn:Hc;
       [|now erewrite !bind_raise by exact Hc]);
      apply check_observer_world in Hc as Hw; subst wc; rewrite !(bind_ok _ _ _ _ _ Hc);
      rewrite Hjd, Hf, !open_ephem_then; cbv zeta; simpl heap; simpl klog;
      destruct (ephem_open K _ =? 0); try reflexivity.
    + destruct (topo_star P _ _ _ _ _) as [[c ra] dec]. now destruct (negb (c =? 0)).
    + destruct (topo_planet P _ _ _ _ _) as [c [[ra dec] dist]]. now destruct (negb (c =? 0)).
Qed.

Lemma places_take_TT_time_as_sum_witness :
  snd (astropos sample_kernel sample_places 0.2617993877991494 0.017453292519943295
         "/usr/lib" (Sidereal origin_star) (JDtime 1) false (world_with (j2000 "TT")))
  = snd (astropos sample_kernel sample_places 0.2617993877991494 0.017453292519943295
           "/usr/lib" (Sidereal origin_star) (JDfloat (2451545 + 0)) false
           (world_with (j2000 "TT")))
  /\ snd (topopos sample_kernel sample_places 0.2617993877991494 0.017453292519943295
            "/usr/lib" (Sidereal origin_star) (JDtime 1) (AnEarthObserver geocenter) 0 false
            (world_with (j2000 "TT")))
     = snd (topopos sample_kernel sample_places 0.2617993877991494 0.017453292519943295
              "/usr/lib" (Sidereal origin_star) (JDfloat (2451545 + 0))
              (AnEarthObserver geocenter) 0 false (world_with (j2000 "TT"))).
Proof.
  apply (places_take_TT_time_as_sum sample_kernel sample_places 0.2617993877991494
           0.017453292519943295 "/usr/lib" (Sidereal origin_star) 1 2451545 0
           (AnEarthObserver geocenter) 0 false (world_with (j2000 "TT"))).
  reflexivity.
Defined.

(** X18.  A failure to open the ephemeris is fatal and comes first: with a
    float as the time and an [EarthObserver], [astropos], [topopos] and
    [horizonpos] raise [NovasError] naming [ephem_open] with its status,
    whatever the place routines would answer, and the record of kernel
    routines gains that one call. *)
Theorem ephem_open_failure_is_fatal (K : Kernel) (P : PlaceKernel)
    (H2R D2R R2H R2D : float) (dir : string) (self : celestial) (x : float)
    (o : EarthObserver) (lowaccuracy : bool) (deltat xp yp : float) (refract : Z)
    (w : World) :
  let p := (dir ++ "/" ++ "_precastro-DEc421.dat")%string in
  let failed := (mkWorld (heap w) (Kephem_open p :: klog w),
                 @Raise (float * float) (NovasError "ephem_open" (ephem_open K p))) in
  ephem_open K p <> 0 ->
  astropos K P H2R D2R dir self (JDfloat x) lowaccuracy w = failed
  /\ topopos K P H2R D2R dir self (JDfloat x) (AnEarthObserver o) deltat lowaccuracy w
     = failed
  /\ horizonpos K P H2R D2R R2H R2D dir self (JDfloat x) (AnEarthObserver o)
       lowaccuracy deltat xp yp refract w = failed.
Proof.
  intros p failed Hopen. apply Z.eqb_neq in Hopen.
  assert (Hf : forall {R} (k : float -> M R) w0,
             (do jd <- to_jd_tt K (JDfloat x); k jd) w0 = k x w0) by reflexivity.
  assert (Ho : forall {R} (k : EarthObserver -> M R) w0,
             (do obs <- check_observer (AnEarthObserver o); k obs) w0 = k o w0)
    by reflexivity.
  repeat split.
  - destruct self; simpl; unfold Sidereal_astropos, Ephem_astropos;
      rewrite Hf, open_ephem_then; cbv zeta; fold p; now rewrite Hopen.
  - destruct self; simpl; unfold Sidereal_topopos, Ephem_topopos;
      rewrite Ho, Hf, open_ephem_then; cbv zeta; fold p; now rewrite Hopen.
  - unfold horizonpos. rewrite Ho, open_ephem_then. cbv zeta. fold p. now rewrite Hopen.
Qed.

Lemma ephem_open_failure_is_fatal_witness :
  astropos (kernel_with_ephem_status 1 0) sample_places 0.2617993877991494
    0.017453292519943295 "/usr/lib" (Ephemeris (mkEphem (mkObject 0 4 (mkCat 0 0))))
    (JDfloat 2451545) false w0
  = (mkWorld (heap w0) (Kephem_open "/usr/lib/_precastro-DEc421.dat" :: klog w0),
     Raise (NovasError "ephem_open" 1)).
Proof.
  apply (ephem_open_failure_is_fatal (kernel_with_ephem_status 1 0) sample_places
           0.2617993877991494 0.017453292519943295 3.819718634205488 57.29577951308232
           "/usr/lib" (Ephemeris (mkEphem (mkObject 0 4 (mkCat 0 0)))) 2451545
           geocenter false 0 0 0 0 w0).
  discriminate.
Defined.

Section NeverOk.
Context {A B : Type}.

Lemma bind_never_ok (c : M A) (k : A -> M B) (w : World) :
  (forall a w' v, snd (k a w') <> Ok v) -> forall v, snd (bind c k w) <> Ok v.
Proof.
  intros Hk v. unfold bind. destruct (c w) as [w' [a|e]]; [apply Hk | discriminate].
Qed.

End NeverOk.

(** X19.  [horizonpos] needs a [Time]: given a float as the time it never
    returns, and once the topocentric place has been computed what it
    raises is [AttributeError] (a float has no [asTT]), although [topopos]
    itself accepts the float. *)
Theorem horizonpos_needs_a_Time (K : Kernel) (P : PlaceKernel)
    (H2R D2R R2H R2D : float) (dir : string) (self : celestial) (x : float)
    (earthobs : observer_arg) (lowaccuracy : bool) (deltat xp yp : float)
    (refract : Z) (w : World) :
  (forall v, snd (horizonpos K P H2R D2R R2H R2D dir self (JDfloat x) earthobs
                    lowaccuracy deltat xp yp refract w) <> Ok v)
  /\ (forall o w2 radec,
        earthobs = AnEarthObserver o ->
        ephem_open K (dir ++ "/" ++ "_precastro-DEc421.dat") = 0 ->
        topopos K P H2R D2R dir self (JDfloat x) earthobs deltat lowaccuracy
          (mkWorld (heap w) (Kephem_open (dir ++ "/" ++ "_precastro-DEc421.dat") :: klog w))
        = (w2, Ok radec) ->
        horizonpos K P H2R D2R R2H R2D dir self (JDfloat x) earthobs
          lowaccuracy deltat xp yp refract w = (w2, Raise AttributeError)).
Proof.
  split.
  - unfold horizonpos.
    apply bind_never_ok. intros obs w1.
    apply bind_never_ok. intros _ w2.
    apply bind_never_ok. intros radec w3. cbv zeta.
    intros v. unfold bind at 1, raise at 1. discriminate.
  - intros o w2 radec -> Hopen Htopo. unfold horizonpos.
    assert (Ho : forall {R} (k : EarthObserver -> M R) w0,
               (do obs <- check_observer (AnEarthObserver o); k obs) w0 = k o w0)
      by reflexivity.
    rewrite Ho, open_ephem_then. cbv zeta. rewrite Hopen. cbn [Z.eqb].
    erewrite bind_ok by exact Htopo. reflexivity.
Qed.

Lemma horizonpos_needs_a_Time_witness :
  horizonpos sample_kernel sample_places 0.2617993877991494 0.017453292519943295
    3.819718634205488 57.29577951308232 "/usr/lib" (Sidereal origin_star)
    (JDfloat 2451545) (AnEarthObserver geocenter) false 0 0 0 0 w0
  = (mkWorld (heap w0)
       [Kephem_open "/usr/lib/_precastro-DEc421.dat";
        Kephem_open "/usr/lib/_precastro-DEc421.dat"],
     Raise AttributeError).
Proof.
  apply (proj2 (horizonpos_needs_a_Time sample_kernel sample_places 0.2617993877991494
                  0.017453292519943295 3.819718634205488 57.29577951308232 "/usr/lib"
                  (Sidereal origin_star) 2451545 (AnEarthObserver geocenter) false
                  0 0 0 0 w0) geocenter _ (0 * 0.2617993877991494, 0 * 0.017453292519943295)%float);
    reflexivity.
Defined.

Lemma fresh_dom_ne (h : gmap loc Time) (l : loc) (t : Time) :
  h !! l = Some t -> fresh (dom h) <> l.
Proof. intros H. exact (fresh_ne (mkWorld h []) l t H). Qed.

(** X20.  [horizonpos] of a star for a [Time] in TT and an [EarthObserver]:
    the topocentric place is computed at [jd1 + jd2], converted back from
    radians to hours and degrees, and handed to [equ2hor] with
    [UT1 = (jd1 + jd2) - deltat]; the result is the azimuth and [90] minus
    the zenith distance, in radians, and the refracted coordinates are
    dropped.  The ephemeris is opened twice and the time is left as it
    was. *)
Theorem horizonpos_of_star (K : Kernel) (P : PlaceKernel) (H2R D2R R2H R2D : float)
    (dir : string) (s : SiderealObject) (l : loc) (a b : float) (o : EarthObserver)
    (lowaccuracy : bool) (deltat xp yp : float) (refract : Z) (w : World)
    (ra dec zd az rar decr : float) :
  let p := (dir ++ "/" ++ "_precastro-DEc421.dat")%string in
  heap w !! l = Some (mkTime (Some a) (Some b) (Some "TT"%string)) ->
  ephem_open K p = 0 ->
  topo_star P (a + b) deltat (star (so_handle s)) (on_surf (ob_handle o))
    (Z.b2z lowaccuracy) = (0, ra, dec) ->
  equ2hor P (a + b - deltat) deltat (Z.b2z lowaccuracy) xp yp (on_surf (ob_handle o))
    (ra * H2R * R2H) (dec * D2R * R2D) refract = (zd, az, rar, decr) ->
  exists w',
    horizonpos K P H2R D2R R2H R2D dir (Sidereal s) (JDtime l) (AnEarthObserver o)
      lowaccuracy deltat xp yp refract w
    = (w', Ok (az * D2R, (90 - zd) * D2R)%float)
    /\ klog w' = Kephem_open p :: Kephem_open p :: klog w
    /\ heap w' !! l = Some (mkTime (Some a) (Some b) (Some "TT"%string)).
Proof.
  intros p Hl Hopen Htopo Hhor.
  assert (Ho : forall {R} (k : EarthObserver -> M R) w0,
             (do obs <- check_observer (AnEarthObserver o); k obs) w0 = k o w0)
    by reflexivity.
  assert (Hjd : forall {R} (k : float -> M R) w0,
             heap w0 !! l = Some (mkTime (Some a) (Some b) (Some "TT"%string)) ->
             (do jd <- to_jd_tt K (JDtime l); k jd) w0
             = k (a + b)%float
                 (mkWorld (<[fresh (dom (heap w0)) :=
                               mkTime (Some a) (Some b) (Some "TT"%string)]> (heap w0))
                    (klog w0))).
  { intros R k w0 Hl0. unfold to_jd_tt.
    erewrite bind_ok; [reflexivity|].
    erewrite bind_ok by (apply (asTT_TT_run K l false w0 _ Hl0); reflexivity).
    apply (asJD_run _ _ a b (Some "TT"%string)). simpl. apply lookup_insert_eq. }
  unfold horizonpos.
  rewrite Ho, open_ephem_then. cbv zeta. fold p. rewrite Hopen. cbn [Z.eqb].
  unfold topopos, Sidereal_topopos.
  set (w1 := mkWorld (heap w) (Kephem_open p :: klog w)).
  assert (Hl1 : heap w1 !! l = Some (mkTime (Some a) (Some b) (Some "TT"%string)))
    by exact Hl.
  erewrite bind_ok.
  2:{ rewrite Ho, (Hjd _ _ w1 Hl1), open_ephem_then. cbv zeta. fold p.
      rewrite Hopen. cbn [Z.eqb]. rewrite Htopo. reflexivity. }
  cbn [fst snd heap klog].
  pose proof (fresh_ne w1 l _ Hl1) as Hne1. cbn [heap w1] in Hne1.
  erewrite bind_ok
    by (eapply (asTT_TT_run K l false);
        [cbn [heap]; rewrite lookup_insert_ne by exact Hne1; exact Hl | reflexivity]).
  erewrite bind_ok
    by (apply (asJD_run _ _ a b (Some "TT"%string)); simpl; apply lookup_insert_eq).
  cbn [jd1 jd2]. rewrite Hhor.
  eexists. split; [reflexivity|]. cbn [heap klog]. split; [reflexivity|].
  rewrite lookup_insert_ne.
  - rewrite lookup_insert_ne by exact Hne1. exact Hl.
  - apply fresh_dom_ne with (t := mkTime (Some a) (Some b) (Some "TT"%string)).
    rewrite lookup_insert_ne by exact Hne1. exact Hl.
Qed.

Lemma horizonpos_of_star_witness :
  exists w',
    horizonpos sample_kernel sample_places 0.2617993877991494 0.017453292519943295
      3.819718634205488 57.29577951308232 "/usr/lib" (Sidereal origin_star)
      (JDtime 1) (AnEarthObserver geocenter) false 0 0 0 0 (world_with (j2000 "TT"))
    = (w', Ok (0 * 0.017453292519943295, (90 - 90) * 0.017453292519943295)%float)
    /\ klog w' = [Kephem_open "/usr/lib/_precastro-DEc421.dat";
                  Kephem_open "/usr/lib/_precastro-DEc421.dat"]
    /\ heap w' !! 1%positive = Some (j2000 "TT").
Proof.
  apply (horizonpos_of_star sample_kernel sample_places 0.2617993877991494
           0.017453292519943295 3.819718634205488 57.29577951308232 "/usr/lib"
           origin_star 1 2451545 0 geocenter false 0 0 0 0 (world_with (j2000 "TT"))
           0 0 90 0 (0 * 0.2617993877991494 * 3.819718634205488)
           (0 * 0.017453292519943295 * 57.29577951308232));
    reflexivity.
Defined.
